(** * AgriSmart: statistics, trend analysis and schema-level derived data

    A shallow embedding of the analytic core of the AgriSmart backend:

    - [SoilHealth]    : the PL/pgSQL function [calculate_soil_health_score]
                        (scripts/V2_create_fresh_database.sql);
    - [CropCycles]    : the [crop_cycles] table with its generated column
                        [expected_harvest_date] (same script);
    - [Js]            : the few JavaScript primitives the route handlers use
                        ([||], [Math.round], [toFixed(1)], [parseInt]);
    - [MarketPrices]  : the market-price route (trend annotation);
    - [DistrictStats] : the district-statistics route (filters, aggregates);
    - [Profile]       : the profile route (identity check, select, upsert);
    - [MarketRoute]   : the rest of the market-price route (query, grouping,
                        statistics, response);
    - [Domains]       : the numeric validation domain of the schema;
    - [Patterns]      : the patterns of the phone and email domains;
    - [Seed]          : the seed script of district statistics
                        (scripts/seed_district_stats.ts).

    Numbers.  PostgreSQL [NUMERIC] is an exact decimal type and is modelled by
    [Q].  JavaScript numbers are IEEE doubles; they are modelled by [Q] as
    well, that is, with exact arithmetic: the theorems below speak about the
    formulas the handlers evaluate, not about the rounding error of the
    double-precision operations that evaluate them. *)

From Stdlib Require Import ZArith QArith Qround Qabs Qminmax Lqa Lia Bool Ascii String List.
From stdpp Require Import base option list strings pretty gmap.

Set Default Proof Using "Type".

(* ===================================================================== *)
(** * Part I: the embedding                                               *)
(* ===================================================================== *)

(** ** Soil health score (PL/pgSQL) *)

Module SoilHealth.

Local Open Scope Z_scope.

(** A non-NULL [NUMERIC]: a finite decimal or one of the special values. *)
Inductive numeric : Type :=
| Num (q : Q)
| PosInf
| NegInf
| NaN.

(** PostgreSQL's total order on [NUMERIC]:
    [-Infinity < finite < Infinity < NaN], and [NaN = NaN]. *)
Definition numeric_leb (a b : numeric) : bool :=
  match a, b with
  | _, NaN => true
  | NaN, _ => false
  | NegInf, _ => true
  | _, NegInf => false
  | _, PosInf => true
  | PosInf, _ => false
  | Num x, Num y => Qle_bool x y
  end.

(** SQL values are nullable; SQL truth values are three-valued
    ([None] is UNKNOWN). *)
Definition sql_ge (a b : option numeric) : option bool :=
  match a, b with
  | Some x, Some y => Some (numeric_leb y x)
  | _, _ => None
  end.

Definition sql_le (a b : option numeric) : option bool :=
  match a, b with
  | Some x, Some y => Some (numeric_leb x y)
  | _, _ => None
  end.

Definition sql_and (p q : option bool) : option bool :=
  match p, q with
  | Some false, _ | _, Some false => Some false
  | Some true, Some true => Some true
  | _, _ => None
  end.

(** [IF c THEN] and [CASE WHEN c THEN] take the branch only when [c] is
    TRUE; FALSE and UNKNOWN both fall through to [ELSE]. *)
Definition holds (c : option bool) : bool :=
  match c with
  | Some true => true
  | _ => false
  end.

Definition lit (q : Q) : option numeric := Some (Num q).

(** [LEAST(a, b, c)] on non-NULL arguments. *)
Definition LEAST (a b c : Z) : Z := Z.min a (Z.min b c).

(** The three score variables are [NUMERIC]s that only ever hold the
    integer literals of the function body and their sums, hence [Z]. *)
Definition calculate_soil_health_score
    (ph nitrogen phosphorus potassium organic_matter : option numeric) : Z :=
  let ph_score :=
    if holds (sql_and (sql_ge ph (lit 6)) (sql_le ph (lit (15 # 2))))
    then 40 else 10 in
  let nutrient_score :=
    LEAST
      (if holds (sql_and (sql_ge nitrogen (lit 200)) (sql_le nitrogen (lit 400)))
       then 20 else 10)
      (if holds (sql_and (sql_ge phosphorus (lit 20)) (sql_le phosphorus (lit 60)))
       then 20 else 10)
      (if holds (sql_and (sql_ge potassium (lit 150)) (sql_le potassium (lit 300)))
       then 20 else 10) in
  let organic_score :=
    if holds (sql_ge organic_matter (lit 2)) then 20
    else if holds (sql_ge organic_matter (lit 1)) then 15
    else 5 in
  ph_score + nutrient_score + organic_score.

(** *** The scorer as the specification words it

    "in [lo, hi]" holds of a finite reading between the bounds; a NULL
    reading or a special value is in no bounded interval. *)
Definition within (lo hi : Q) (x : option numeric) : bool :=
  match x with
  | Some (Num q) => Qle_bool lo q && Qle_bool q hi
  | _ => false
  end.

(** ">= lo" in the order of the type ([Infinity] and [NaN] sort above every
    finite value); a NULL reading is not [>=] anything. *)
Definition at_least (lo : Q) (x : option numeric) : bool :=
  match x with
  | Some (Num q) => Qle_bool lo q
  | Some PosInf | Some NaN => true
  | Some NegInf | None => false
  end.

Definition spec_ph (ph : option numeric) : Z :=
  if within 6 (15 # 2) ph then 40 else 10.

Definition spec_nitrogen (n : option numeric) : Z :=
  if within 200 400 n then 20 else 10.

Definition spec_phosphorus (p : option numeric) : Z :=
  if within 20 60 p then 20 else 10.

Definition spec_potassium (k : option numeric) : Z :=
  if within 150 300 k then 20 else 10.

Definition spec_organic (om : option numeric) : Z :=
  if at_least 2 om then 20 else if at_least 1 om then 15 else 5.

Definition spec_score (ph n p k om : option numeric) : Z :=
  spec_ph ph
  + Z.min (spec_nitrogen n) (Z.min (spec_phosphorus p) (spec_potassium k))
  + spec_organic om.

(** Every reading in its best band. *)
Definition all_optimal (ph n p k om : option numeric) : bool :=
  within 6 (15 # 2) ph && within 200 400 n && within 20 60 p
  && within 150 300 k && at_least 2 om.

(** The three nutrients in their bands. *)
Definition nutrients_in_range (n p k : option numeric) : bool :=
  within 200 400 n && within 20 60 p && within 150 300 k.

(** The rejected reading of the nutrient term: the mean of the three
    components, as a rational. *)
Definition nutrient_average (n p k : option numeric) : Q :=
  (inject_Z (spec_nitrogen n + spec_phosphorus p + spec_potassium k) / 3)%Q.

End SoilHealth.

(** ** The [crop_cycles] table and its generated column *)

Module CropCycles.

Local Open Scope Z_scope.

Inductive crop_status_enum : Type :=
| planning | planted | growing | harvested | failed.

Inductive season_enum : Type :=
| kharif | rabi | zaid | summer | winter | monsoon.

(** One row.  A [DATE] is a day number and a timestamp an instant, both
    integers; [id] and [field_id] are UUIDs, here numbers.  [id] is the
    primary key and is the key of the table below, not a field. *)
Record crop_cycle : Type := {
  field_id : N;
  crop_name : string;
  planting_date : Z;
  expected_harvest_date : Z;
  status : option crop_status_enum;
  season : option season_enum;
  created_at : Z;
  updated_at : Z
}.

(** What a statement may supply for the generated column. *)
Inductive supplied : Type :=
| DEFAULT
| Explicit (d : Z).

(** One [SET column = value] of an [UPDATE]. *)
Inductive assignment : Type :=
| SET_field_id (f : N)
| SET_crop_name (c : string)
| SET_planting_date (d : Z)
| SET_expected_harvest_date (v : supplied)
| SET_status (s : option crop_status_enum)
| SET_season (s : option season_enum).

Inductive statement : Type :=
| INSERT (id field : N) (crop : string) (planting : Z) (harvest : supplied)
         (st : option (option crop_status_enum)) (se : option season_enum)
| UPDATE (id : N) (sets : list assignment)
| DELETE (id : N).

Section Engine.

(** The range of day numbers the engine can represent; outside it the
    date arithmetic of the generation expression raises an error. *)
Variable representable : Z -> bool.

(** [GENERATED ALWAYS AS (planting_date + INTERVAL '120 days') STORED]:
    the date is taken at midnight, 120 days are added, and the result is
    stored back as a date. *)
Definition generation_expression (planting : Z) : option Z :=
  let d := planting + 120 in
  if representable d then Some d else None.

(** A generated column accepts no value other than [DEFAULT]. *)
Definition writes_generated (a : assignment) : bool :=
  match a with
  | SET_expected_harvest_date (Explicit _) => true
  | _ => false
  end.

Definition assign (r : crop_cycle) (a : assignment) : crop_cycle :=
  match a with
  | SET_field_id f =>
      {| field_id := f; crop_name := crop_name r;
         planting_date := planting_date r;
         expected_harvest_date := expected_harvest_date r;
         status := status r; season := season r;
         created_at := created_at r; updated_at := updated_at r |}
  | SET_crop_name c =>
      {| field_id := field_id r; crop_name := c;
         planting_date := planting_date r;
         expected_harvest_date := expected_harvest_date r;
         status := status r; season := season r;
         created_at := created_at r; updated_at := updated_at r |}
  | SET_planting_date d =>
      {| field_id := field_id r; crop_name := crop_name r;
         planting_date := d;
         expected_harvest_date := expected_harvest_date r;
         status := status r; season := season r;
         created_at := created_at r; updated_at := updated_at r |}
  | SET_expected_harvest_date _ => r
  | SET_status s =>
      {| field_id := field_id r; crop_name := crop_name r;
         planting_date := planting_date r;
         expected_harvest_date := expected_harvest_date r;
         status := s; season := season r;
         created_at := created_at r; updated_at := updated_at r |}
  | SET_season s =>
      {| field_id := field_id r; crop_name := crop_name r;
         planting_date := planting_date r;
         expected_harvest_date := expected_harvest_date r;
         status := status r; season := s;
         created_at := created_at r; updated_at := updated_at r |}
  end.

(** The [BEFORE UPDATE] trigger [update_updated_at_column]. *)
Definition update_updated_at_column (now : Z) (r : crop_cycle) : crop_cycle :=
  {| field_id := field_id r; crop_name := crop_name r;
     planting_date := planting_date r;
     expected_harvest_date := expected_harvest_date r;
     status := status r; season := season r;
     created_at := created_at r; updated_at := now |}.

(** After the triggers have run, the engine computes the generated
    column of the row about to be stored. *)
Definition store_generated (r : crop_cycle) : option crop_cycle :=
  match generation_expression (planting_date r) with
  | Some h =>
      Some {| field_id := field_id r; crop_name := crop_name r;
              planting_date := planting_date r;
              expected_harvest_date := h;
              status := status r; season := season r;
              created_at := created_at r; updated_at := updated_at r |}
  | None => None
  end.

(** One statement run at instant [now]; [None] is an error, which leaves
    the table as it was. *)
Definition exec (now : Z) (s : statement) (t : gmap N crop_cycle)
    : option (gmap N crop_cycle) :=
  match s with
  | INSERT id field crop planting harvest st se =>
      match harvest with
      | Explicit _ => None
      | DEFAULT =>
          match t !! id with
          | Some _ => None
          | None =>
              match store_generated
                      {| field_id := field; crop_name := crop;
                         planting_date := planting;
                         expected_harvest_date := 0;
                         status := match st with
                                   | Some v => v
                                   | None => Some planning
                                   end;
                         season := se;
                         created_at := now; updated_at := now |} with
              | Some r => Some (<[id := r]> t)
              | None => None
              end
          end
      end
  | UPDATE id sets =>
      if existsb writes_generated sets then None
      else
        match t !! id with
        | None => Some t
        | Some r =>
            match store_generated
                    (update_updated_at_column now (fold_left assign sets r)) with
            | Some r' => Some (<[id := r']> t)
            | None => None
            end
        end
  | DELETE id => Some (delete id t)
  end.

(** A session: statements with the instants they run at; a failed
    statement changes nothing. *)
Fixpoint run (script : list (Z * statement)) (t : gmap N crop_cycle)
    : gmap N crop_cycle :=
  match script with
  | [] => t
  | (now, s) :: rest =>
      match exec now s t with
      | Some t' => run rest t'
      | None => run rest t
      end
  end.

End Engine.

(** Whether an assignment names the planting date. *)
Definition assigns_planting_date (a : assignment) : bool :=
  match a with
  | SET_planting_date _ => true
  | _ => false
  end.

(** Reading the column ([SELECT expected_harvest_date ... WHERE id = k]). *)
Definition SELECT_expected_harvest_date (id : N) (t : gmap N crop_cycle)
    : option Z :=
  expected_harvest_date <$> t !! id.

(** The invariant of the table. *)
Definition in_sync (t : gmap N crop_cycle) : Prop :=
  map_Forall (fun _ r => expected_harvest_date r = planting_date r + 120) t.

End CropCycles.

(** ** JavaScript primitives used by the route handlers

    Numbers are exact rationals here.  Out of the model: [NaN] and the
    infinities as price or percentage (no handler formula below produces
    them from finite inputs), the exponent form [toFixed] switches to from
    1e21 on, and the precision [parseInt] loses on very long digit
    strings. *)

Module Js.

Local Open Scope Q_scope.

(** A numeric column as the client library delivers it: a number, or
    absent ([null]; [undefined] when the table has no such column). *)
Definition truthy (x : option Q) : bool :=
  match x with
  | Some q => negb (Qeq_bool q 0)
  | None => false
  end.

(** [a || b] between two such values. *)
Definition or_else (a b : option Q) : option Q :=
  if truthy a then a else b.

(** [a || 0]. *)
Definition or_zero (a : option Q) : Q :=
  match a with
  | Some q => if Qeq_bool q 0 then 0 else q
  | None => 0
  end.

(** [x > y] on numbers. *)
Definition gt (x y : Q) : bool := negb (Qle_bool x y).

(** [x < y] on numbers. *)
Definition lt (x y : Q) : bool := negb (Qle_bool y x).

(** [Math.round(x)]: the nearest integer, a tie going up. *)
Definition Math_round (x : Q) : Z := Qfloor (x + (1 # 2)).

(** [x.toFixed(1)]: for [x < 0] the sign is set aside and [x] negated,
    then the digits are those of the integer [n] with [n / 10] nearest to
    [x], the larger one on a tie.  The result is kept as the signed number
    of tenths. *)
Definition toFixed1 (x : Q) : Z :=
  if Qle_bool 0 x
  then Qfloor (x * 10 + (1 # 2))
  else (- Qfloor (- x * 10 + (1 # 2)))%Z.

(** [Number.parseFloat(x.toFixed(1))]. *)
Definition parseFloat_toFixed1 (x : Q) : Q := inject_Z (toFixed1 x) / 10.

(** *** Strings

    A truthy string is a present, non-empty one. *)
Definition truthy_string (s : option string) : option string :=
  match s with
  | Some EmptyString => None
  | other => other
  end.

(** [a === b] between two values that are strings or absent.  The rows of
    one result set share their keys, so a column is [undefined] on all of
    them or on none, and two absent values of one column are both
    [undefined] or both [null]: strictly equal either way. *)
Definition strict_eq (a b : option string) : bool := bool_decide (a = b).

(** White space skipped by [parseInt] (code units below 256). *)
Definition is_white_space (c : ascii) : bool :=
  let n := N_of_ascii c in
  ((9 <=? n) && (n <=? 13) || (n =? 32) || (n =? 160))%N.

Fixpoint trim_start (s : string) : string :=
  match s with
  | String c rest => if is_white_space c then trim_start rest else s
  | EmptyString => s
  end.

(** The value of a character as a digit in the given radix. *)
Definition digit_value (radix : N) (c : ascii) : option N :=
  let n := N_of_ascii c in
  let v :=
    if ((48 <=? n) && (n <=? 57))%N then Some (n - 48)%N
    else if ((97 <=? n) && (n <=? 122))%N then Some (n - 87)%N
    else if ((65 <=? n) && (n <=? 90))%N then Some (n - 55)%N
    else None in
  match v with
  | Some d => if (d <? radix)%N then Some d else None
  | None => None
  end.

(** The longest prefix of digits, read as a number; [None] when the
    prefix is empty. *)
Fixpoint leading_digits (radix : N) (s : string) (acc : option N) : option N :=
  match s with
  | String c rest =>
      match digit_value radix c with
      | Some d =>
          leading_digits radix rest
            (Some (match acc with
                   | Some a => a * radix + d
                   | None => d
                   end)%N)
      | None => acc
      end
  | EmptyString => acc
  end.

(** [parseInt(s)] with no radix argument; [None] is [NaN]. *)
Definition parseInt (s : string) : option Z :=
  let S0 := trim_start s in
  let '(sign, S1) :=
    match S0 with
    | String "-" rest => ((-1)%Z, rest)
    | String "+" rest => (1%Z, rest)
    | _ => (1%Z, S0)
    end in
  let '(R, S2) :=
    match S1 with
    | String "0" (String "x" rest) => (16%N, rest)
    | String "0" (String "X" rest) => (16%N, rest)
    | _ => (10%N, S1)
    end in
  match leading_digits R S2 None with
  | Some mathInt => Some (sign * Z.of_N mathInt)%Z
  | None => None
  end.


(** *** Numbers that may be [NaN]

    Where a handler adds or compares a column that the table may lack, the
    operand is [undefined] and the result [NaN]: [None] below. *)

(** [a + b]. *)
Definition add (a b : option Q) : option Q :=
  match a, b with
  | Some x, Some y => Some (x + y)
  | _, _ => None
  end.

(** [a / n] for a count [n]. *)
Definition div_count (a : option Q) (n : nat) : option Q :=
  match a with
  | Some x => Some (x / inject_Z (Z.of_nat n))
  | None => None
  end.

(** [Math.round(a)]. *)
Definition Math_round_number (a : option Q) : option Z :=
  match a with
  | Some x => Some (Math_round x)
  | None => None
  end.

Definition max2 (a b : option Q) : option Q :=
  match a, b with
  | Some x, Some y => Some (Qmax x y)
  | _, _ => None
  end.

Definition min2 (a b : option Q) : option Q :=
  match a, b with
  | Some x, Some y => Some (Qmin x y)
  | _, _ => None
  end.

(** [Math.max(x, ...rest)] and [Math.min(x, ...rest)] on at least one
    argument: the largest (smallest), or [NaN] as soon as one argument is. *)
Definition Math_max (x : option Q) (rest : list (option Q)) : option Q :=
  fold_left max2 rest x.

Definition Math_min (x : option Q) (rest : list (option Q)) : option Q :=
  fold_left min2 rest x.

(** *** Plain objects used as maps

    The properties an object literal inherits from [Object.prototype].
    Reading one of these keys on [{}] yields a function (or, for
    [__proto__], the prototype object), never [undefined]. *)
Definition Object_prototype_keys : list string :=
  [ "constructor"; "__defineGetter__"; "__defineSetter__"; "hasOwnProperty";
    "__lookupGetter__"; "__lookupSetter__"; "isPrototypeOf";
    "propertyIsEnumerable"; "toString"; "valueOf"; "__proto__";
    "toLocaleString" ].

Definition inherited (key : string) : bool :=
  bool_decide (key ∈ Object_prototype_keys).

(** The property key an optional string is converted to. *)
Definition property_key (k : option string) : string :=
  match k with
  | Some s => s
  | None => "undefined"
  end.

End Js.

(** ** The market-price route: trend annotation *)

Module MarketPrices.

Local Open Scope Q_scope.

(** A row of the result set.  Only the columns the handler reads are
    named; the others are copied through by the object spread and play no
    part.  A column the table does not have is absent on every row. *)
Record market_price : Type := {
  crop_name : option string;
  commodity : option string;
  date : string;
  modal_price : option Q;
  max_price : option Q;
  min_price : option Q;
  price_per_quintal : option Q
}.

Inductive trend_label : Type := up | down | stable.

(** A row of [processedPrices]: [{...price, trend, change_percent,
    change_amount}]. *)
Record processed_price : Type := {
  price_row : market_price;
  trend : trend_label;
  change_percent : Q;
  change_amount : Z
}.

(** The predicate handed to [find]. *)
Definition same_series (price p : market_price) : bool :=
  Js.strict_eq (crop_name p) (crop_name price)
  || Js.strict_eq (commodity p) (commodity price).

(** [array.slice(index + 1).find(...)]. *)
Definition previousPrice (array : list market_price) (index : nat)
    (price : market_price) : option market_price :=
  List.find (same_series price) (drop (S index) array).

(** [r.modal_price || r.max_price || r.min_price || 0]. *)
Definition coalesced_price (r : market_price) : Q :=
  Js.or_zero (Js.or_else (Js.or_else (modal_price r) (max_price r)) (min_price r)).

(** The two mutable locals [trend] and [changePercent] after the [if]
    blocks of the callback. *)
Definition classify (price : market_price) (previous : option market_price)
    : trend_label * Q :=
  match previous with
  | Some previousPrice =>
      let currentPrice := coalesced_price price in
      let prevPrice := coalesced_price previousPrice in
      if Js.gt prevPrice 0 then
        let changePercent := ((currentPrice - prevPrice) / prevPrice) * 100 in
        (if Js.gt changePercent 2 then up
         else if Js.lt changePercent (-2) then down
         else stable,
         changePercent)
      else (stable, 0)
  | None => (stable, 0)
  end.

(** The callback of [pricesData.map]. *)
Definition process (array : list market_price) (index : nat)
    (price : market_price) : processed_price :=
  let '(trend, changePercent) :=
    classify price (previousPrice array index price) in
  {| price_row := price;
     trend := trend;
     change_percent := Js.parseFloat_toFixed1 changePercent;
     change_amount :=
       Js.Math_round
         (Js.or_zero (Js.or_else (modal_price price) (max_price price))
          * (changePercent / 100)) |}.

(** [pricesData?.map(...) || []]. *)
Definition processedPrices (pricesData : option (list market_price))
    : list processed_price :=
  match pricesData with
  | Some array => imap (process array) array
  | None => []
  end.

(** Sample rows: a crop name or a commodity, a date and the three
    prices. *)
Definition observation (crop commodity : option string) (date : string)
    (modal max min : option Q) : market_price :=
  {| crop_name := crop; commodity := commodity; date := date;
     modal_price := modal; max_price := max; min_price := min;
     price_per_quintal := None |}.

(** Wheat at 2200 after wheat at 2000: a rise of 10 percent. *)
Definition wheat_rise : list market_price :=
  [ observation (Some "Wheat") None "2024-02-02" (Some 2200) None None;
    observation (Some "Wheat") None "2024-02-01" (Some 2000) None None ].


(** Wheat with only a minimum price, 120, after wheat at 100. *)
Definition wheat_min_only : list market_price :=
  [ observation (Some "Wheat") None "2024-02-02" None None (Some 120);
    observation (Some "Wheat") None "2024-02-01" (Some 100) None None ].

(** Wheat at 500 after a wheat row whose prices are all zero or absent. *)
Definition wheat_after_zero : list market_price :=
  [ observation (Some "Wheat") None "2024-02-02" (Some 500) None None;
    observation (Some "Wheat") None "2024-02-01" (Some 0) None None ].

(** Rice at 3300 directly before wheat at 3000 on a table without a
    [commodity] column. *)
Definition rice_then_wheat : list market_price :=
  [ observation (Some "Rice") None "2024-02-02" (Some 3300) None None;
    observation (Some "Wheat") None "2024-02-01" (Some 3000) None None ].

(** *** The classifier as the specification words it *)




End MarketPrices.

(** ** The district-statistics route: filters and aggregates *)

Module DistrictStats.

Local Open Scope Q_scope.

(** A row of [district_statistics] (scripts/run_all_migrations.sql). *)
Record district_statistic : Type := {
  state : string;
  district : string;
  taluka : option string;
  season : option string;
  crop : option string;
  area_ha : option Q;
  production_mt : option Q;
  yield_mt_per_ha : option Q;
  rainfall_mm : option Q;
  irrigation_coverage_percent : option Q;
  horticulture_area_ha : option Q;
  medicinal_plants_area_ha : option Q;
  source : option string;
  recorded_year : option Z
}.

(** The query handed to the repository, as the builder calls leave it. *)
Inductive condition : Type :=
| ilike (column pattern : string)
| eq (column : string) (value : Z).

Record query : Type := {
  from : string;
  select : string;
  order : list (string * bool);   (* column, ascending *)
  limit : option Z;               (* [None] is [NaN] *)
  filters : list condition
}.

Definition add_filter (f : condition) (q : query) : query :=
  {| from := from q; select := select q; order := order q;
     limit := limit q; filters := filters q ++ [f] |}.

(** What awaiting the query yields: [{ data, error }]. *)
Record query_result : Type := {
  data : option (list district_statistic);
  error : option string
}.

(** [searchParams.get(...)] for the five parameters read. *)
Record search_params : Type := {
  param_district : option string;
  param_taluka : option string;
  param_crop : option string;
  param_year : option string;
  param_limit : option string
}.

Definition percent_wrap (s : string) : string := "%" ++ s ++ "%".

(** The query built by the handler from the request. *)
Definition build_query (p : search_params) : query :=
  let limit :=
    Js.parseInt (match Js.truthy_string (param_limit p) with
                 | Some s => s
                 | None => "100"
                 end) in
  let query :=
    {| from := "district_statistics"; select := "*";
       order := [("recorded_year", false); ("district", true)];
       limit := limit; filters := [] |} in
  let query :=
    match Js.truthy_string (param_district p) with
    | Some district => add_filter (ilike "district" (percent_wrap district)) query
    | None => query
    end in
  let query :=
    match Js.truthy_string (param_taluka p) with
    | Some taluka => add_filter (ilike "taluka" (percent_wrap taluka)) query
    | None => query
    end in
  let query :=
    match Js.truthy_string (param_crop p) with
    | Some crop => add_filter (ilike "crop" (percent_wrap crop)) query
    | None => query
    end in
  let query :=
    match Js.truthy_string (param_year p) with
    | Some year =>
        match Js.parseInt year with
        | Some yearNum => add_filter (eq "recorded_year" yearNum) query
        | None => query
        end
    | None => query
    end in
  query.

(** [Number(x) || 0] on a numeric column: an absent value counts as 0. *)
Definition Number_or_0 (x : option Q) : Q := Js.or_zero x.

(** [data.reduce((sum, r) => sum + (Number(r.field) || 0), 0)]. *)
Definition reduce_sum (field : district_statistic -> option Q)
    (data : list district_statistic) : Q :=
  fold_left (fun sum r => sum + Number_or_0 (field r)) data 0.

(** [data.length > 0 ? reduce(...) / data.length : 0]. *)
Definition average (field : district_statistic -> option Q)
    (data : list district_statistic) : Q :=
  if (0 <? length data)%nat
  then reduce_sum field data / inject_Z (Z.of_nat (length data))
  else 0.

Record aggregate_stats : Type := {
  totalArea : Q;
  totalProduction : Q;
  avgYield : Q;
  avgRainfall : Q;
  avgIrrigationCoverage : Q
}.

(** [const aggregates = data ? {...} : null]; an array, empty or not, is
    truthy. *)
Definition aggregates (data : option (list district_statistic))
    : option aggregate_stats :=
  match data with
  | Some data =>
      Some {| totalArea := reduce_sum area_ha data;
              totalProduction := reduce_sum production_mt data;
              avgYield := average yield_mt_per_ha data;
              avgRainfall := average rainfall_mm data;
              avgIrrigationCoverage := average irrigation_coverage_percent data |}
  | None => None
  end.

Inductive response : Type :=
| json_success (stats : option (list district_statistic))
               (aggregates : option aggregate_stats) (count : nat)
| json_error (message : string) (status : nat).

Section Handler.

(** The repository behind [await query]; [None] when the client
    library throws instead of answering, which the enclosing [catch]
    turns into the second 500 answer. *)
Variable repository : query -> option query_result.

Definition GET (p : search_params) : response :=
  match repository (build_query p) with
  | None => json_error "Internal server error" 500
  | Some res =>
      match error res with
      | Some _ => json_error "Failed to fetch district statistics" 500
      | None =>
          json_success (data res) (aggregates (data res))
            (match data res with
             | Some d => length d
             | None => 0%nat
             end)
      end
  end.

End Handler.

(** *** The average as the specification words it: the sum of the field
    over all records, absent counting as 0, over the number of records. *)
Definition field_total (field : district_statistic -> option Q)
    (data : list district_statistic) : Q :=
  foldr Qplus 0 (map (fun r => default 0 (field r)) data).


(** A record none of whose five aggregated measures is recorded. *)
Definition all_absent (r : district_statistic) : Prop :=
  area_ha r = None /\ production_mt r = None /\ yield_mt_per_ha r = None
  /\ rainfall_mm r = None /\ irrigation_coverage_percent r = None.

(** The aggregate object with every entry 0. *)
Definition zero_stats : aggregate_stats :=
  {| totalArea := 0; totalProduction := 0; avgYield := 0;
     avgRainfall := 0; avgIrrigationCoverage := 0 |}.

(** The same request with the year parameter left out. *)
Definition without_year (p : search_params) : search_params :=
  {| param_district := param_district p; param_taluka := param_taluka p;
     param_crop := param_crop p; param_year := None;
     param_limit := param_limit p |}.

(** The same request with every empty parameter left out. *)
Definition drop_blank (p : search_params) : search_params :=
  {| param_district := Js.truthy_string (param_district p);
     param_taluka := Js.truthy_string (param_taluka p);
     param_crop := Js.truthy_string (param_crop p);
     param_year := Js.truthy_string (param_year p);
     param_limit := Js.truthy_string (param_limit p) |}.

(** Sample data: a record with a yield and nothing else measured, and the
    pair of records with yields 10 and missing. *)
Definition record_with_yield (district : string) (y : option Q)
    : district_statistic :=
  {| state := "Maharashtra"; district := district; taluka := None;
     season := None; crop := Some "Wheat"; area_ha := None;
     production_mt := None; yield_mt_per_ha := y; rainfall_mm := None;
     irrigation_coverage_percent := None; horticulture_area_ha := None;
     medicinal_plants_area_ha := None; source := None;
     recorded_year := Some 2023%Z |}.

Definition yield_10_and_missing : list district_statistic :=
  [ record_with_yield "Pune" (Some 10); record_with_yield "Nashik" None ].

(** A repository in which no record matches, and one that holds the two
    sample records whatever is asked. *)
Definition no_match : query -> option query_result :=
  fun _ => Some {| data := Some []; error := None |}.


(** A repository over the two sample records that applies the exact
    conditions on [recorded_year] and leaves the patterns uninterpreted. *)
Definition satisfies (c : condition) (r : district_statistic) : bool :=
  match c with
  | eq column value =>
      negb (String.eqb column "recorded_year")
      || bool_decide (recorded_year r = Some value)
  | ilike _ _ => true
  end.

Definition by_year : query -> option query_result :=
  fun q =>
    Some {| data :=
              Some (List.filter
                      (fun r => forallb (fun c => satisfies c r) (filters q))
                      yield_10_and_missing);
            error := None |}.

(** A request for wheat in Pune with a year that is not a number. *)
Definition request_with_bad_year : search_params :=
  {| param_district := Some "Pune"; param_taluka := None;
     param_crop := Some "wheat"; param_year := Some "abc";
     param_limit := None |}.

End DistrictStats.

(** ** The profile route: identity check, select, upsert *)

Module Profile.

(** A row of [farmer_profiles] as the handler writes it. *)
Record farmer_profile : Type := {
  user_id : string;
  full_name : option string;
  phone : option string;
  email : option string;
  state : option string;
  district : option string;
  land_area : option Q;
  land_unit : option string;
  primary_crop : option string;
  experience_years : option Q;
  preferred_language : option string;
  irrigation : option string
}.

(** The body of a [POST], once parsed. *)
Record payload : Type := {
  payload_full_name : option string;
  payload_phone : option string;
  payload_email : option string;
  payload_state : option string;
  payload_district : option string;
  payload_land_area : option Q;
  payload_land_unit : option string;
  payload_primary_crop : option string;
  payload_experience_years : option Q;
  payload_preferred_language : option string;
  payload_irrigation : option string
}.

(** What a repository call yields: [{ data, error }]. *)
Record query_result : Type := {
  data : option farmer_profile;
  error : option string
}.

(** The repository calls a handler can make. *)
Inductive call : Type :=
| select_eq_user_id (userId : string)
| upsert_on_user_id (row : farmer_profile).

Inductive response : Type :=
| json_success (profile : option farmer_profile)
| json_error (message : string) (status : nat).

(** [x ? Number(x) : null] on a numeric field of the body. *)
Definition number_or_null (x : option Q) : option Q :=
  if Js.truthy x then x else None.

Section Handlers.

(** The repository: some store, a read and a write against it.  A call
    answers [{ data, error }], or [None] when the client library throws
    instead, which the enclosing [catch] turns into the 500 answer. *)
Variable store : Type.
Variable select_maybeSingle : string -> store -> option query_result.
Variable upsert_single :
  farmer_profile -> store -> store * option query_result.

(** The state a handler runs in: the store and the calls made so far. *)
Record world : Type := {
  db : store;
  calls : list call
}.

Definition M (A : Type) : Type := world -> A * world.

Definition ret {A} (a : A) : M A := fun w => (a, w).

Definition bind {A B} (m : M A) (k : A -> M B) : M B :=
  fun w => let '(a, w') := m w in k a w'.

Notation "x <- m ;; k" := (bind m (fun x => k))
  (at level 100, m at next level, right associativity).

Definition do_select (userId : string) : M (option query_result) :=
  fun w =>
    (select_maybeSingle userId (db w),
     {| db := db w; calls := calls w ++ [select_eq_user_id userId] |}).

Definition do_upsert (row : farmer_profile) : M (option query_result) :=
  fun w =>
    let '(db', res) := upsert_single row (db w) in
    (res, {| db := db'; calls := calls w ++ [upsert_on_user_id row] |}).

(** [GET]; the argument is the [userId] that [auth()] resolved. *)
Definition GET (auth : option string) : M response :=
  match Js.truthy_string auth with
  | None => ret (json_error "Unauthorized" 401)
  | Some userId =>
      answer <- do_select userId ;;
      match answer with
      | None => ret (json_error "Internal server error" 500)
      | Some res =>
          match error res with
          | Some _ => ret (json_error "Failed to fetch profile" 500)
          | None => ret (json_success (data res))
          end
      end
  end.

(** [POST]; [body] is [None] when [request.json()] throws, which the
    enclosing [catch] turns into the 500 answer. *)
Definition POST (auth : option string) (body : option payload) : M response :=
  match Js.truthy_string auth with
  | None => ret (json_error "Unauthorized" 401)
  | Some userId =>
      match body with
      | None => ret (json_error "Internal server error" 500)
      | Some payload =>
          answer <- do_upsert
                   {| user_id := userId;
                      full_name := payload_full_name payload;
                      phone := payload_phone payload;
                      email := payload_email payload;
                      state := payload_state payload;
                      district := payload_district payload;
                      land_area := number_or_null (payload_land_area payload);
                      land_unit := payload_land_unit payload;
                      primary_crop := payload_primary_crop payload;
                      experience_years :=
                        number_or_null (payload_experience_years payload);
                      preferred_language := payload_preferred_language payload;
                      irrigation := payload_irrigation payload |} ;;
          match answer with
          | None => ret (json_error "Internal server error" 500)
          | Some res =>
              match error res with
              | Some _ => ret (json_error "Failed to save profile" 500)
              | None => ret (json_success (data res))
              end
          end
      end
  end.

End Handlers.

Arguments db {store} _.
Arguments calls {store} _.

(** An in-memory repository: the table keyed by its unique [user_id]. *)
Definition table_select (userId : string) (t : gmap string farmer_profile)
    : option query_result :=
  Some {| data := t !! userId; error := None |}.

Definition table_upsert (row : farmer_profile) (t : gmap string farmer_profile)
    : gmap string farmer_profile * option query_result :=
  (<[user_id row := row]> t, Some {| data := Some row; error := None |}).

(** Sample data: a body that only names the farmer, and the store holding
    one profile, with no call made yet. *)
Definition body_asha : payload :=
  {| payload_full_name := Some "Asha"; payload_phone := None;
     payload_email := None; payload_state := Some "Maharashtra";
     payload_district := Some "Pune"; payload_land_area := Some (5 # 2);
     payload_land_unit := Some "acre"; payload_primary_crop := Some "Wheat";
     payload_experience_years := None; payload_preferred_language := None;
     payload_irrigation := None |}.

Definition profile_ravi : farmer_profile :=
  {| user_id := "user_1"; full_name := Some "Ravi"; phone := None;
     email := None; state := None; district := None; land_area := None;
     land_unit := None; primary_crop := None; experience_years := None;
     preferred_language := None; irrigation := None |}.

Definition one_profile : world (gmap string farmer_profile) :=
  {| db := {[ "user_1" := profile_ravi ]}; calls := [] |}.

End Profile.

(** ** The market-price route: query, grouping, statistics, response *)

Module MarketRoute.

Import MarketPrices.

Local Open Scope Q_scope.

(** [searchParams.get(...)] for the three parameters read. *)
Record search_params : Type := {
  param_crop : option string;
  param_state : option string;
  param_limit : option string
}.

(** The column list of [select], a template literal. *)
Definition select_columns : string :=
  "
        *,
        crop_varieties (
          variety_name,
          quality_grade
        )
      ".

(** [limit]: [Number.parseInt(searchParams.get("limit") || "50")]. *)
Definition requested_limit (p : search_params) : option Z :=
  Js.parseInt (match Js.truthy_string (param_limit p) with
               | Some s => s
               | None => "50"
               end).

(** The query awaited: newest first, the two optional patterns, and the
    limit, which the handler sets last. *)
Definition build_query (p : search_params) : DistrictStats.query :=
  let query :=
    {| DistrictStats.from := "market_prices";
       DistrictStats.select := select_columns;
       DistrictStats.order := [("date", false)];
       DistrictStats.limit := requested_limit p;
       DistrictStats.filters := [] |} in
  let query :=
    match Js.truthy_string (param_crop p) with
    | Some crop =>
        DistrictStats.add_filter
          (DistrictStats.ilike "crop_name" (DistrictStats.percent_wrap crop)) query
    | None => query
    end in
  let query :=
    match Js.truthy_string (param_state p) with
    | Some state =>
        DistrictStats.add_filter
          (DistrictStats.ilike "state" (DistrictStats.percent_wrap state)) query
    | None => query
    end in
  query.

Record query_result : Type := {
  data : option (list market_price);
  error : option string
}.

(** The key a processed price is filed under.  [crop_name] is [NOT NULL]
    where the table has the column, so an absent one is [undefined]. *)
Definition group_key (price : processed_price) : string :=
  Js.property_key (crop_name (price_row price)).

(** The callback of the grouping [reduce]; [None] is the [TypeError] of
    [acc[cropName].push] when [acc[cropName]] is an inherited property
    rather than an array.  The order of the keys of the object is not
    modelled. *)
Definition group_step (acc : option (gmap string (list processed_price)))
    (price : processed_price) : option (gmap string (list processed_price)) :=
  match acc with
  | None => None
  | Some acc =>
      let cropName := group_key price in
      match acc !! cropName with
      | Some group => Some (<[cropName := group ++ [price]]> acc)
      | None =>
          if Js.inherited cropName then None
          else Some (<[cropName := [price]]> acc)
      end
  end.

Definition groupedPrices (processed : list processed_price)
    : option (gmap string (list processed_price)) :=
  fold_left group_step processed (Some ∅).

(** [marketStats].  [price_per_quintal] is [NOT NULL] where the table has
    the column, so an absent one is [undefined] and poisons the three
    price statistics. *)
Record market_stats : Type := {
  total_crops : nat;
  price_increases : nat;
  price_decreases : nat;
  avg_price : option Z;
  highest_price : option Q;
  lowest_price : option Q
}.

Definition is_trend (t : trend_label) (p : processed_price) : bool :=
  match trend p, t with
  | up, up | down, down | stable, stable => true
  | _, _ => false
  end.

Definition quintal_prices (processed : list processed_price) : list (option Q) :=
  map (fun p => price_per_quintal (price_row p)) processed.

Definition marketStats (grouped : gmap string (list processed_price))
    (processed : list processed_price) : market_stats :=
  {| total_crops := size grouped;
     price_increases := length (List.filter (is_trend up) processed);
     price_decreases := length (List.filter (is_trend down) processed);
     avg_price :=
       if (0 <? length processed)%nat
       then Js.Math_round_number
              (Js.div_count
                 (fold_left (fun sum p => Js.add sum (price_per_quintal (price_row p)))
                    processed (Some 0))
                 (length processed))
       else Some 0%Z;
     highest_price :=
       match quintal_prices processed with
       | x :: rest => Js.Math_max x rest
       | [] => Some 0
       end;
     lowest_price :=
       match quintal_prices processed with
       | x :: rest => Js.Math_min x rest
       | [] => Some 0
       end |}.

Inductive response : Type :=
| json_success (prices : list processed_price)
               (grouped_prices : gmap string (list processed_price))
               (market_stats : market_stats)
               (filters : option string * option string * option Z)
               (source : string) (last_updated : string)
| json_error (message : string) (status : nat).

Section Handler.

(** The repository behind the awaited query ([None]: the client library
    throws), and the clock read for [last_updated]. *)
Variable repository : DistrictStats.query -> option query_result.
Variable now : string.

Definition GET (p : search_params) : response :=
  match repository (build_query p) with
  | None => json_error "Internal server error" 500
  | Some res =>
      match error res with
      | Some _ => json_error "Failed to fetch market prices" 500
      | None =>
          let processed := processedPrices (data res) in
          match groupedPrices processed with
          | None => json_error "Internal server error" 500
          | Some grouped =>
              json_success processed grouped (marketStats grouped processed)
                (param_crop p, param_state p, requested_limit p)
                "database" now
          end
      end
  end.

End Handler.

(** *** Words for the statements below *)

(** The same request with every empty parameter left out. *)
Definition drop_blank (p : search_params) : search_params :=
  {| param_crop := Js.truthy_string (param_crop p);
     param_state := Js.truthy_string (param_state p);
     param_limit := Js.truthy_string (param_limit p) |}.

(** The processed prices filed under a key, in their order. *)
Definition members (key : string) (processed : list processed_price)
    : list processed_price :=
  List.filter (fun p => String.eqb (group_key p) key) processed.

(** The entry expected under a key: its members, when there are any. *)
Definition group_of (key : string) (processed : list processed_price)
    : option (list processed_price) :=
  match members key processed with
  | [] => None
  | group => Some group
  end.

(** The distinct keys, in the order they are first seen. *)
Definition crop_keys (processed : list processed_price) : list string :=
  remove_dups (map group_key processed).

(** A row whose crop name collides with an inherited property. *)
Definition collides (price : market_price) : Prop :=
  Js.inherited (Js.property_key (crop_name price)) = true.

(** Sample data: wheat, rice, wheat, newest first, with the old price
    column; the same with a crop named like an object method; a repository
    that answers every query with given rows; and a request. *)
Definition quoted (crop : string) (date : string) (price : Q) : market_price :=
  {| crop_name := Some crop; commodity := None; date := date;
     modal_price := None; max_price := None; min_price := None;
     price_per_quintal := Some price |}.

Definition mixed_market : list market_price :=
  [ quoted "Wheat" "2024-02-03" 2200; quoted "Rice" "2024-02-02" 3300;
    quoted "Wheat" "2024-02-01" 2000 ].

Definition method_market : list market_price :=
  [ quoted "Wheat" "2024-02-03" 2200; quoted "constructor" "2024-02-02" 10 ].

Definition serves (rows : list market_price)
    : DistrictStats.query -> option query_result :=
  fun _ => Some {| data := Some rows; error := None |}.

Definition any_request : search_params :=
  {| param_crop := None; param_state := None; param_limit := None |}.

(** The statistics of an empty result. *)
Definition zero_stats : market_stats :=
  {| total_crops := 0; price_increases := 0; price_decreases := 0;
     avg_price := Some 0%Z; highest_price := Some 0; lowest_price := Some 0 |}.

End MarketRoute.

(** ** The validation domains of the schema *)

Module Domains.

Import SoilHealth.

Local Open Scope Z_scope.

(** A [CHECK] constraint is satisfied unless its condition is FALSE. *)
Definition check_passes (c : option bool) : bool :=
  match c with
  | Some false => false
  | _ => true
  end.

(** Rounding to two decimal places, as [NUMERIC] rounds: to the nearest
    hundredth, a tie away from zero.  The result is the number of
    hundredths. *)
Definition round_hundredths (q : Q) : Z :=
  if Qle_bool 0 q
  then Qfloor (q * 100 + (1 # 2))
  else - Qfloor (- q * 100 + (1 # 2)).

(** Conversion to [NUMERIC(8,2)]: the value is rounded to two decimals and
    must then fit six digits before the point; [NaN] is kept, an infinity is
    not accepted.  [None] is the error. *)
Definition NUMERIC_8_2 (v : numeric) : option numeric :=
  match v with
  | Num q =>
      let h := round_hundredths q in
      if Z.abs h <? 100000000 then Some (Num (inject_Z h / 100)) else None
  | NaN => Some NaN
  | PosInf | NegInf => None
  end.

(** [CREATE DOMAIN land_size_hectares AS NUMERIC(8,2)
      CHECK (VALUE >= 0.01 AND VALUE <= 10000)]: the value is first converted
    to the base type, then checked. *)
Definition land_size_hectares (v : option numeric) : option (option numeric) :=
  match v with
  | None => Some None
  | Some x =>
      match NUMERIC_8_2 x with
      | None => None
      | Some c =>
          if check_passes
               (sql_and (sql_ge (Some c) (lit (1 # 100)))
                        (sql_le (Some c) (lit 10000)))
          then Some (Some c) else None
      end
  end.

End Domains.

(** ** The patterns of the text domains *)

Module Patterns.

(** The fragment of regular expressions the two patterns use. *)
Inductive regex : Type :=
| Class (member : ascii -> bool)                    (* a bracket expression *)
| Lit (c : ascii)                                   (* one ordinary character *)
| Seq (r1 r2 : regex)                               (* r1 r2 *)
| Opt (r : regex)                                   (* r? *)
| Repeat (r : regex) (lo : nat) (hi : option nat).  (* r{lo,hi}, r{lo,}, r+ *)

(** What it is for the whole of a text, a list of characters, to match:
    the meaning of a pattern written between [^] and [$]. *)
Fixpoint matches (r : regex) (l : list ascii) : Prop :=
  match r with
  | Class member => exists c, l = [c] /\ member c = true
  | Lit c => l = [c]
  | Seq r1 r2 => exists l1 l2, l = l1 ++ l2 /\ matches r1 l1 /\ matches r2 l2
  | Opt r => l = [] \/ matches r l
  | Repeat r lo hi =>
      exists pieces,
        l = concat pieces
        /\ (lo <= length pieces)%nat
        /\ match hi with
           | Some h => (length pieces <= h)%nat
           | None => True
           end
        /\ Forall (matches r) pieces
  end.

Definition between (lo hi : N) (c : ascii) : bool :=
  let n := N_of_ascii c in ((lo <=? n) && (n <=? hi))%N.

Definition digit (c : ascii) : bool := between 48 57 c.

Definition letter (c : ascii) : bool := between 65 90 c || between 97 122 c.

(** [\s]: space, tab, line feed, vertical tab, form feed, carriage
    return. *)
Definition space (c : ascii) : bool :=
  between 9 13 c || Ascii.eqb c " ".

(** [[+]]. *)
Definition plus_sign (c : ascii) : bool := Ascii.eqb c "+".

(** [[0-9\s\-\(\)]]. *)
Definition phone_char (c : ascii) : bool :=
  digit c || space c || Ascii.eqb c "-" || Ascii.eqb c "(" || Ascii.eqb c ")".

(** [[A-Za-z0-9._%+-]]. *)
Definition local_char (c : ascii) : bool :=
  letter c || digit c || Ascii.eqb c "." || Ascii.eqb c "_" || Ascii.eqb c "%"
  || Ascii.eqb c "+" || Ascii.eqb c "-".

(** [[A-Za-z0-9.-]]. *)
Definition domain_char (c : ascii) : bool :=
  letter c || digit c || Ascii.eqb c "." || Ascii.eqb c "-".


(** [^[A-Za-z0-9._%+-]+@[A-Za-z0-9.-]+\.[A-Za-z]{2,}$], the check of
    [email_address]. *)
Definition email_pattern : regex :=
  Seq (Repeat (Class local_char) 1 None)
    (Seq (Lit "@")
       (Seq (Repeat (Class domain_char) 1 None)
          (Seq (Lit ".") (Repeat (Class letter) 2 None)))).

(** *** Deciding the two checks *)

(** A run of characters of one class, with its length bounds. *)
Definition run (member : ascii -> bool) (lo : nat) (hi : option nat)
    (l : list ascii) : bool :=
  forallb member l && (lo <=? length l)%nat
  && match hi with
     | Some h => (length l <=? h)%nat
     | None => true
     end.

Definition phone_ok (l : list ascii) : bool :=
  match l with
  | c :: rest =>
      if plus_sign c then run phone_char 10 (Some 20) rest
      else run phone_char 10 (Some 20) l
  | [] => run phone_char 10 (Some 20) l
  end.

(** The text before the first occurrence of [c], and the text after it. *)
Fixpoint split_first (c : ascii) (l : list ascii)
    : option (list ascii * list ascii) :=
  match l with
  | [] => None
  | a :: rest =>
      if Ascii.eqb a c then Some ([], rest)
      else match split_first c rest with
           | Some (before, after) => Some (a :: before, after)
           | None => None
           end
  end.

(** The text before the last occurrence of [c], and the text after it. *)
Fixpoint split_last (c : ascii) (l : list ascii)
    : option (list ascii * list ascii) :=
  match l with
  | [] => None
  | a :: rest =>
      match split_last c rest with
      | Some (before, after) => Some (a :: before, after)
      | None => if Ascii.eqb a c then Some ([], rest) else None
      end
  end.

Definition email_ok (l : list ascii) : bool :=
  match split_first "@" l with
  | Some (local, rest) =>
      run local_char 1 None local
      && match split_last "." rest with
         | Some (domain, tld) =>
             run domain_char 1 None domain && run letter 2 None tld
         | None => false
         end
  | None => false
  end.

(** The checks on strings. *)
Definition phone_number_check (s : string) : bool :=
  phone_ok (list_ascii_of_string s).

Definition email_address_check (s : string) : bool :=
  email_ok (list_ascii_of_string s).

End Patterns.

(** ** The seed script of district statistics *)

Module Seed.

Local Open Scope Q_scope.

(** [interface DistrictStatsRecord]: a record of the JSON payload. *)
Record DistrictStatsRecord : Type := {
  district : string;
  taluka : option string;
  season : option string;
  crop : option string;
  area_ha : option Q;
  production_mt : option Q;
  yield_mt_per_ha : option Q;
  rainfall_mm : option Q;
  irrigation_coverage_percent : option Q;
  horticulture_area_ha : option Q;
  medicinal_plants_area_ha : option Q;
  source : option string;
  recorded_year : option Z
}.

(** The callback of [payload.map]. *)
Definition to_row (record : DistrictStatsRecord) : DistrictStats.district_statistic :=
  {| DistrictStats.state := "Maharashtra";
     DistrictStats.district := district record;
     DistrictStats.taluka := taluka record;
     DistrictStats.season := season record;
     DistrictStats.crop := crop record;
     DistrictStats.area_ha := area_ha record;
     DistrictStats.production_mt := production_mt record;
     DistrictStats.yield_mt_per_ha := yield_mt_per_ha record;
     DistrictStats.rainfall_mm := rainfall_mm record;
     DistrictStats.irrigation_coverage_percent := irrigation_coverage_percent record;
     DistrictStats.horticulture_area_ha := horticulture_area_ha record;
     DistrictStats.medicinal_plants_area_ha := medicinal_plants_area_ha record;
     DistrictStats.source := source record;
     DistrictStats.recorded_year := recorded_year record |}.

(** The two variables of [process.env] the script reads. *)
Record environment : Type := {
  NEXT_PUBLIC_SUPABASE_URL : option string;
  SUPABASE_SERVICE_ROLE_KEY : option string
}.

(** [getSupabaseClient]: the credentials of the client, or [None] when the
    function throws because one of them is missing or empty. *)
Definition getSupabaseClient (env : environment) : option (string * string) :=
  match Js.truthy_string (NEXT_PUBLIC_SUPABASE_URL env),
        Js.truthy_string (SUPABASE_SERVICE_ROLE_KEY env) with
  | Some url, Some key => Some (url, key)
  | _, _ => None
  end.

(** How the process ends: [process.exit(1)], or the line it logs. *)
Inductive outcome : Type :=
| exit (code : nat)
| log (line : string).

Section Script.

(** The repository: a store and the upsert into [district_statistics],
    which answers with an error message or none ([None] when the client
    library throws). *)
Variable store : Type.
Variable upsert :
  list DistrictStats.district_statistic -> store -> store * option (option string).

(** The state the script runs in: the store and the batches upserted. *)
Record world : Type := {
  db : store;
  upserts : list (list DistrictStats.district_statistic)
}.

(** [seedDistrictStats] followed by the [catch] of the last lines.
    [payload] is the parsed file, [None] when reading or parsing it
    throws. *)
Definition seedDistrictStats (env : environment)
    (payload : option (list DistrictStatsRecord)) (w : world) : outcome * world :=
  match payload with
  | None => (exit 1, w)
  | Some payload =>
      match getSupabaseClient env with
      | None => (exit 1, w)
      | Some _ =>
          let rows := map to_row payload in
          let '(db', answer) := upsert rows (db w) in
          let w' := {| db := db'; upserts := upserts w ++ [rows] |} in
          match answer with
          | None => (exit 1, w')
          | Some (Some _) => (exit 1, w')
          | Some None =>
              (log ("Seeded " +:+ pretty (length payload) +:+ " district stats rows"),
               w')
          end
      end
  end.

End Script.

Arguments db {store} _.
Arguments upserts {store} _.

(** Sample data: an environment without the service key, a complete one,
    one record, and a store that keeps what is upserted. *)
Definition no_key : environment :=
  {| NEXT_PUBLIC_SUPABASE_URL := Some "https://example.supabase.co";
     SUPABASE_SERVICE_ROLE_KEY := None |}.

Definition with_key : environment :=
  {| NEXT_PUBLIC_SUPABASE_URL := Some "https://example.supabase.co";
     SUPABASE_SERVICE_ROLE_KEY := Some "service-role" |}.

Definition pune_wheat : DistrictStatsRecord :=
  {| district := "Pune"; taluka := Some "Haveli"; season := Some "rabi";
     crop := Some "Wheat"; area_ha := Some 1200; production_mt := Some 3000;
     yield_mt_per_ha := Some (5 # 2); rainfall_mm := None;
     irrigation_coverage_percent := Some 45; horticulture_area_ha := None;
     medicinal_plants_area_ha := None; source := None;
     recorded_year := Some 2023%Z |}.

Definition keep (rows : list DistrictStats.district_statistic)
    (s : list DistrictStats.district_statistic)
    : list DistrictStats.district_statistic * option (option string) :=
  (s ++ rows, Some None).

Definition fresh : world (list DistrictStats.district_statistic) :=
  {| db := []; upserts := [] |}.

End Seed.

(* ===================================================================== *)
(** * Part II: the properties                                             *)
(* ===================================================================== *)

Section SoilHealthFacts.
Import SoilHealth.

Lemma range_test_within lo hi x :
  holds (sql_and (sql_ge x (lit lo)) (sql_le x (lit hi))) = within lo hi x.
Proof.
  destruct x as [[q| | |]|]; simpl; try reflexivity.
  destruct (Qle_bool lo q), (Qle_bool q hi); reflexivity.
Qed.

Lemma floor_test_at_least lo x :
  holds (sql_ge x (lit lo)) = at_least lo x.
Proof.
  destruct x as [[q| | |]|]; simpl; try reflexivity.
  destruct (Qle_bool lo q); reflexivity.
Qed.

Lemma score_is_spec_score ph n p k om :
  calculate_soil_health_score ph n p k om = spec_score ph n p k om.
Proof.
  unfold calculate_soil_health_score, spec_score, LEAST.
  rewrite !range_test_within, !floor_test_at_least.
  reflexivity.
Qed.

Lemma spec_score_bounds ph n p k om :
  (25 <= spec_score ph n p k om <= 80)%Z.
Proof.
  unfold spec_score, spec_ph, spec_nitrogen, spec_phosphorus,
    spec_potassium, spec_organic.
  destruct (within 6 (15 # 2) ph), (within 200 400 n), (within 20 60 p),
    (within 150 300 k), (at_least 2 om), (at_least 1 om);
    cbn; lia.
Qed.

End SoilHealthFacts.

(** C6.  For all inputs (NULL and special values included) the soil health
    score is the pH component (40 inside [6.0, 7.5], else 10) plus the
    minimum of the nitrogen, phosphorus and potassium components (20 inside
    [200,400], [20,60], [150,300] respectively, else 10) plus the
    organic-matter component (20 from 2.0, 15 from 1.0, else 5).  It always
    lies in [25, 80]; score(6.5, 300, 40, 200, 2.5) = 80 and
    score(4.0, 50, 5, 50, 0.3) = 25.  With only phosphorus deficient the
    nutrient term is the minimum 10, not the mean 50/3, so the score is 70. *)
Theorem soil_health_score_weakest_link :
  (forall ph n p k om,
      SoilHealth.calculate_soil_health_score ph n p k om
      = SoilHealth.spec_score ph n p k om
      /\ (25 <= SoilHealth.calculate_soil_health_score ph n p k om <= 80)%Z)
  /\ SoilHealth.calculate_soil_health_score
       (SoilHealth.lit (65 # 10)) (SoilHealth.lit 300) (SoilHealth.lit 40)
       (SoilHealth.lit 200) (SoilHealth.lit (25 # 10)) = 80%Z
  /\ SoilHealth.calculate_soil_health_score
       (SoilHealth.lit 4) (SoilHealth.lit 50) (SoilHealth.lit 5)
       (SoilHealth.lit 50) (SoilHealth.lit (3 # 10)) = 25%Z
  /\ SoilHealth.calculate_soil_health_score
       (SoilHealth.lit (65 # 10)) (SoilHealth.lit 300) (SoilHealth.lit 5)
       (SoilHealth.lit 200) (SoilHealth.lit (25 # 10)) = 70%Z
  /\ (SoilHealth.nutrient_average
        (SoilHealth.lit 300) (SoilHealth.lit 5) (SoilHealth.lit 200)
      == 50 # 3)%Q.
Proof.
  split.
  - intros ph n p k om. split.
    + apply score_is_spec_score.
    + rewrite score_is_spec_score. apply spec_score_bounds.
  - repeat split; reflexivity.
Qed.

Section CropCyclesFacts.
Import CropCycles.
Local Open Scope Z_scope.

Variable representable : Z -> bool.

Lemma store_generated_derived r r' :
  store_generated representable r = Some r' ->
  planting_date r' = planting_date r
  /\ expected_harvest_date r' = planting_date r + 120.
Proof.
  unfold store_generated, generation_expression.
  destruct (representable (planting_date r + 120)); [|discriminate].
  intros [= <-]. split; reflexivity.
Qed.

Lemma exec_in_sync now s t t' :
  in_sync t -> exec representable now s t = Some t' -> in_sync t'.
Proof.
  unfold in_sync. intros Hinv.
  destruct s as [id field crop planting harvest st se | id sets | id]; simpl.
  - destruct harvest; [|discriminate].
    destruct (t !! id); [discriminate|].
    destruct (store_generated _ _) as [r|] eqn:Hgen; [|discriminate].
    intros [= <-]. apply map_Forall_insert_2; [|assumption].
    apply store_generated_derived in Hgen as [-> ->]. reflexivity.
  - destruct (existsb writes_generated sets); [discriminate|].
    destruct (t !! id) as [r|]; [|intros [= <-]; assumption].
    destruct (store_generated _ _) as [r'|] eqn:Hgen; [|discriminate].
    intros [= <-]. apply map_Forall_insert_2; [|assumption].
    apply store_generated_derived in Hgen as [-> ->]. reflexivity.
  - intros [= <-]. apply map_Forall_delete. assumption.
Qed.

Lemma run_in_sync script : forall t, in_sync t -> in_sync (run representable script t).
Proof.
  induction script as [|[now s] rest IH]; intros t Hinv; simpl; [assumption|].
  destruct (exec representable now s t) as [t'|] eqn:Hexec.
  - apply IH. eapply exec_in_sync; eassumption.
  - apply IH. assumption.
Qed.

End CropCyclesFacts.

(** C7.  In every state the [crop_cycles] table can reach from the empty
    table, whatever statements were run, each stored crop cycle has an
    expected harvest date equal to its planting date plus exactly 120 days,
    and a read reports that value.  The column cannot be written on its own:
    an [INSERT] or [UPDATE] that supplies a value for it is rejected.  A
    successful change of the planting date to [d] stores the harvest date
    [d + 120] with it. *)
Theorem expected_harvest_date_always_derived
    (representable : Z -> bool) (script : list (Z * CropCycles.statement))
    (id : N) (r : CropCycles.crop_cycle) :
  CropCycles.run representable script ∅ !! id = Some r ->
  let t := CropCycles.run representable script ∅ in
  CropCycles.expected_harvest_date r = (CropCycles.planting_date r + 120)%Z
  /\ CropCycles.SELECT_expected_harvest_date id t
     = Some (CropCycles.planting_date r + 120)%Z
  /\ (forall now v sets,
        CropCycles.exec representable now
          (CropCycles.UPDATE id
             (CropCycles.SET_expected_harvest_date (CropCycles.Explicit v) :: sets)) t
        = None)
  /\ (forall now k f c p v st se,
        CropCycles.exec representable now
          (CropCycles.INSERT k f c p (CropCycles.Explicit v) st se) t = None)
  /\ (forall now d t',
        CropCycles.exec representable now
          (CropCycles.UPDATE id [CropCycles.SET_planting_date d]) t = Some t' ->
        exists r', t' !! id = Some r'
                   /\ CropCycles.planting_date r' = d
                   /\ CropCycles.expected_harvest_date r' = (d + 120)%Z).
Proof.
  intros Hrow t.
  assert (Hsync : CropCycles.in_sync t).
  { apply run_in_sync. apply map_Forall_empty. }
  assert (Hr : CropCycles.expected_harvest_date r
               = (CropCycles.planting_date r + 120)%Z).
  { exact (Hsync id r Hrow). }
  split; [exact Hr|].
  split.
  { unfold CropCycles.SELECT_expected_harvest_date. subst t.
    rewrite Hrow. simpl. rewrite Hr. reflexivity. }
  split; [reflexivity|].
  split; [reflexivity|].
  intros now d t'. simpl. subst t. rewrite Hrow.
  destruct (CropCycles.store_generated _ _) as [r'|] eqn:Hgen; [|discriminate].
  intros [= <-]. exists r'. rewrite lookup_insert_eq.
  apply store_generated_derived in Hgen as [Hp Hh].
  simpl in Hp, Hh. auto.
Qed.

(** A session that inserts a cycle, tries to overwrite the harvest date,
    and then moves the planting date. *)
Lemma expected_harvest_date_always_derived_witness :
  let script :=
    [ (10%Z, CropCycles.INSERT 1 7 "Wheat" 9000%Z CropCycles.DEFAULT None
               (Some CropCycles.rabi));
      (11%Z, CropCycles.UPDATE 1
               [CropCycles.SET_expected_harvest_date (CropCycles.Explicit 1%Z)]);
      (12%Z, CropCycles.UPDATE 1 [CropCycles.SET_planting_date 9030%Z]) ] in
  CropCycles.SELECT_expected_harvest_date 1
    (CropCycles.run (fun _ => true) script ∅) = Some 9150%Z.
Proof.
  intros script.
  set (r := {| CropCycles.field_id := 7%N; CropCycles.crop_name := "Wheat";
               CropCycles.planting_date := 9030%Z;
               CropCycles.expected_harvest_date := 9150%Z;
               CropCycles.status := Some CropCycles.planning;
               CropCycles.season := Some CropCycles.rabi;
               CropCycles.created_at := 10%Z;
               CropCycles.updated_at := 12%Z |}).
  assert (Hrow : CropCycles.run (fun _ => true) script ∅ !! 1%N = Some r)
    by (vm_compute; reflexivity).
  exact (proj1 (proj2
    (expected_harvest_date_always_derived (fun _ => true) script 1%N r Hrow))).
Defined.


(** Division by the constants of the handlers, in the form [lra] reads. *)
Ltac tenths :=
  unfold Qdiv in *;
  change (/ 10)%Q with (1 # 10)%Q in *;
  change (/ 100)%Q with (1 # 100)%Q in *.

Section JsFacts.
Local Open Scope Q_scope.

Lemma gt_spec x y : Js.gt x y = true <-> y < x.
Proof.
  unfold Js.gt. rewrite negb_true_iff, <- not_true_iff_false, Qle_bool_iff.
  split; [apply Qnot_le_lt | apply Qlt_not_le].
Qed.


Lemma floor_sandwich y :
  inject_Z (Qfloor y) <= y /\ y < inject_Z (Qfloor y) + 1.
Proof.
  split; [apply Qfloor_le|].
  pose proof (Qlt_floor y) as H. rewrite inject_Z_plus in H. exact H.
Qed.









End JsFacts.

Section MarketPricesFacts.
Import MarketPrices.
Local Open Scope Q_scope.

Lemma processedPrices_lookup array i :
  processedPrices (Some array) !! i = process array i <$> array !! i.
Proof. unfold processedPrices. apply list_lookup_imap. Qed.





(** Without one they keep their initial values. *)
Lemma classify_no_previous price previous :
  previous = None
  \/ (exists p, previous = Some p /\ coalesced_price p == 0) ->
  classify price previous = (stable, 0).
Proof.
  intros [-> | (p & -> & Hzero)]; [reflexivity|].
  unfold classify.
  destruct (Js.gt (coalesced_price p) 0) eqn:E; [|reflexivity].
  apply gt_spec in E. lra.
Qed.

Lemma Math_round_zero x : x == 0 -> Js.Math_round x = 0%Z.
Proof.
  intros H. unfold Js.Math_round.
  assert (E : x + (1 # 2) == 1 # 2) by lra.
  rewrite E. reflexivity.
Qed.


End MarketPricesFacts.




(** C2.  An observation whose nearest older same-series observation has a
    coalesced price of 0, or which has no older same-series observation at
    all, is annotated "stable" with changePercent 0 and change amount 0,
    whatever its own price. *)
Theorem no_usable_previous_price_is_stable
    (array : list MarketPrices.market_price) (i : nat)
    (price : MarketPrices.market_price) (r : MarketPrices.processed_price) :
  array !! i = Some price ->
  (MarketPrices.previousPrice array i price = None
   \/ exists previous,
        MarketPrices.previousPrice array i price = Some previous
        /\ (MarketPrices.coalesced_price previous == 0)%Q) ->
  MarketPrices.processedPrices (Some array) !! i = Some r ->
  MarketPrices.trend r = MarketPrices.stable
  /\ (MarketPrices.change_percent r == 0)%Q
  /\ MarketPrices.change_amount r = 0%Z.
Proof.
  intros Hrow Hprev Hr.
  rewrite processedPrices_lookup, Hrow in Hr. simpl in Hr.
  injection Hr as <-.
  unfold MarketPrices.process.
  rewrite (classify_no_previous price _ Hprev). simpl.
  split; [reflexivity|]. split; [reflexivity|].
  apply Math_round_zero. tenths. lra.
Qed.

Lemma no_usable_previous_price_is_stable_witness :
  (exists r,
     MarketPrices.processedPrices (Some MarketPrices.wheat_after_zero) !! 0%nat = Some r
     /\ MarketPrices.trend r = MarketPrices.stable
     /\ (MarketPrices.change_percent r == 0)%Q
     /\ MarketPrices.change_amount r = 0%Z)
  /\ (exists r,
        MarketPrices.processedPrices (Some MarketPrices.wheat_after_zero) !! 1%nat = Some r
        /\ MarketPrices.trend r = MarketPrices.stable
        /\ (MarketPrices.change_percent r == 0)%Q
        /\ MarketPrices.change_amount r = 0%Z).
Proof.
  split.
  - eexists. split; [reflexivity|].
    eapply (no_usable_previous_price_is_stable MarketPrices.wheat_after_zero 0).
    + reflexivity.
    + right. eexists. split; [reflexivity|reflexivity].
    + reflexivity.
  - eexists. split; [reflexivity|].
    eapply (no_usable_previous_price_is_stable MarketPrices.wheat_after_zero 1).
    + reflexivity.
    + left. reflexivity.
    + reflexivity.
Defined.

(** C3 at the failing input.  For wheat with only a minimum price, 120,
    after wheat at 100, the handler computes current = 120, changePercent =
    20 and the label "up" through the chain modal, max, min, 0, but takes
    the price of the amount from the shorter chain modal, max, 0: the
    reported change amount is 0, where round(current * changePercent / 100)
    is 24. *)
Theorem change_amount_ignores_min_price :
  exists price r,
    MarketPrices.wheat_min_only !! 0%nat = Some price
    /\ MarketPrices.processedPrices (Some MarketPrices.wheat_min_only) !! 0%nat = Some r
    /\ (MarketPrices.coalesced_price price == 120)%Q
    /\ MarketPrices.trend r = MarketPrices.up
    /\ (MarketPrices.change_percent r == 20)%Q
    /\ MarketPrices.change_amount r = 0%Z
    /\ Js.Math_round
         (MarketPrices.coalesced_price price * MarketPrices.change_percent r / 100)
       = 24%Z.
Proof.
  eexists _, _.
  split; [reflexivity|]. split; [reflexivity|].
  repeat split; reflexivity.
Qed.

(** C9.  When an observation and the row right after it both lack the
    alternate commodity identifier, the identifier test [===] holds between
    them, so the row after it is taken as its previous observation whatever
    the two crop names are. *)
Theorem absent_commodity_matches_any_crop
    (array : list MarketPrices.market_price) (i : nat)
    (price p : MarketPrices.market_price) :
  array !! i = Some price ->
  array !! S i = Some p ->
  MarketPrices.commodity price = None ->
  MarketPrices.commodity p = None ->
  Js.strict_eq (MarketPrices.commodity p) (MarketPrices.commodity price) = true
  /\ MarketPrices.same_series price p = true
  /\ MarketPrices.previousPrice array i price = Some p.
Proof.
  intros _ Hnext Hc Hp.
  assert (Heq : Js.strict_eq (MarketPrices.commodity p)
                  (MarketPrices.commodity price) = true).
  { rewrite Hc, Hp. reflexivity. }
  assert (Hsame : MarketPrices.same_series price p = true).
  { unfold MarketPrices.same_series. rewrite Heq. apply orb_true_r. }
  split; [exact Heq|]. split; [exact Hsame|].
  unfold MarketPrices.previousPrice.
  rewrite (drop_S array p (S i) Hnext). simpl. rewrite Hsame. reflexivity.
Qed.

(** Rice directly before wheat: the rice row is compared with the wheat
    row, and reported as a rise of 10 percent. *)
Lemma absent_commodity_matches_any_crop_witness :
  exists price p r,
    MarketPrices.rice_then_wheat !! 0%nat = Some price
    /\ MarketPrices.crop_name price = Some "Rice"
    /\ MarketPrices.crop_name p = Some "Wheat"
    /\ MarketPrices.previousPrice MarketPrices.rice_then_wheat 0 price = Some p
    /\ MarketPrices.processedPrices (Some MarketPrices.rice_then_wheat) !! 0%nat = Some r
    /\ MarketPrices.trend r = MarketPrices.up
    /\ (MarketPrices.change_percent r == 10)%Q.
Proof.
  set (price := MarketPrices.observation (Some "Rice") None "2024-02-02"
                  (Some 3300%Q) None None).
  set (p := MarketPrices.observation (Some "Wheat") None "2024-02-01"
              (Some 3000%Q) None None).
  exists price, p. eexists.
  split; [reflexivity|]. split; [reflexivity|]. split; [reflexivity|].
  split.
  - apply (absent_commodity_matches_any_crop MarketPrices.rice_then_wheat 0 price p);
      reflexivity.
  - split; [reflexivity|]. split; reflexivity.
Defined.

Section DistrictStatsFacts.
Import DistrictStats.
Local Open Scope Q_scope.

Lemma Number_or_0_default x : Number_or_0 x == default 0 x.
Proof.
  destruct x as [q|]; simpl; [|reflexivity].
  destruct (Qeq_bool q 0) eqn:E; [|reflexivity].
  apply Qeq_bool_eq in E. symmetry. exact E.
Qed.

(** The left fold of [reduce] adds the field total to its accumulator. *)
Lemma fold_left_adds_total field data : forall acc,
  fold_left (fun sum r => sum + Number_or_0 (field r)) data acc
  == acc + field_total field data.
Proof.
  induction data as [|r rest IH]; intros acc; simpl.
  - unfold field_total. simpl. lra.
  - rewrite IH. unfold field_total. simpl.
    rewrite Number_or_0_default. lra.
Qed.

Lemma reduce_sum_total field data :
  reduce_sum field data == field_total field data.
Proof. unfold reduce_sum. rewrite fold_left_adds_total. lra. Qed.

Lemma average_nonempty field data :
  data <> [] ->
  average field data
  == field_total field data / inject_Z (Z.of_nat (length data)).
Proof.
  intros Hne. unfold average.
  destruct data as [|r rest]; [contradiction|].
  change (0 <? length (r :: rest))%nat with true. cbv iota.
  rewrite reduce_sum_total. reflexivity.
Qed.

Lemma field_total_absent field data :
  Forall (fun r => field r = None) data -> field_total field data == 0.
Proof.
  unfold field_total.
  induction 1 as [|r rest Hr _ IH]; simpl; [reflexivity|].
  rewrite Hr, IH. reflexivity.
Qed.

Lemma average_absent field data :
  Forall (fun r => field r = None) data -> average field data == 0.
Proof.
  intros H. unfold average.
  destruct (0 <? length data)%nat; [|reflexivity].
  rewrite reduce_sum_total, (field_total_absent field data H).
  unfold Qdiv. lra.
Qed.

End DistrictStatsFacts.



(** C5 as stated fails: when no record matches, the repository delivers the
    empty array, which is truthy, and the response carries the aggregate
    object with every entry 0, not null. *)
Lemma empty_match_aggregates_not_null :
  DistrictStats.GET DistrictStats.no_match DistrictStats.request_with_bad_year
  = DistrictStats.json_success (Some []) (Some DistrictStats.zero_stats) 0
  /\ DistrictStats.aggregates (Some []) <> None.
Proof. split; [reflexivity | discriminate]. Qed.

(** C5, as the handler has it.  When the query matches zero records the
    response is a success, not an error, with the empty record list, count 0
    and the aggregate object whose totals and averages are all 0.  The
    aggregates are null only when the repository delivers no data at all.
    Aggregation over records whose measures are all absent yields an
    aggregate object too, with every entry equal to 0. *)
Theorem empty_match_has_zero_aggregates
    (repository : DistrictStats.query -> option DistrictStats.query_result)
    (p : DistrictStats.search_params) :
  repository (DistrictStats.build_query p)
  = Some {| DistrictStats.data := Some []; DistrictStats.error := None |} ->
  DistrictStats.GET repository p
  = DistrictStats.json_success (Some []) (Some DistrictStats.zero_stats) 0
  /\ (forall data, DistrictStats.aggregates data = None <-> data = None)
  /\ (forall data,
        Forall DistrictStats.all_absent data ->
        exists a,
          DistrictStats.aggregates (Some data) = Some a
          /\ (DistrictStats.totalArea a == 0)%Q
          /\ (DistrictStats.totalProduction a == 0)%Q
          /\ (DistrictStats.avgYield a == 0)%Q
          /\ (DistrictStats.avgRainfall a == 0)%Q
          /\ (DistrictStats.avgIrrigationCoverage a == 0)%Q).
Proof.
  intros Hres. split.
  - unfold DistrictStats.GET. rewrite Hres. reflexivity.
  - split.
    + intros [d|]; simpl; split; intros H; (discriminate || reflexivity).
    + intros data Habs. eexists. split; [reflexivity|]. simpl.
      repeat split.
      * rewrite reduce_sum_total. apply field_total_absent.
        eapply Forall_impl; [exact Habs|]. intros r Hr. apply Hr.
      * rewrite reduce_sum_total. apply field_total_absent.
        eapply Forall_impl; [exact Habs|]. intros r Hr. apply Hr.
      * apply average_absent.
        eapply Forall_impl; [exact Habs|]. intros r Hr. apply Hr.
      * apply average_absent.
        eapply Forall_impl; [exact Habs|]. intros r Hr. apply Hr.
      * apply average_absent.
        eapply Forall_impl; [exact Habs|]. intros r Hr. apply Hr.
Qed.

Lemma empty_match_has_zero_aggregates_witness :
  DistrictStats.GET DistrictStats.no_match DistrictStats.request_with_bad_year
  = DistrictStats.json_success (Some []) (Some DistrictStats.zero_stats) 0.
Proof.
  apply (empty_match_has_zero_aggregates
           DistrictStats.no_match DistrictStats.request_with_bad_year).
  reflexivity.
Defined.

(** C10.  A year parameter that is present but does not parse as an integer
    is ignored: the query built carries no exact-match condition, it is the
    query built for the same request without the year, and so the response
    is the response to that request. *)
Theorem unparsable_year_is_ignored
    (repository : DistrictStats.query -> option DistrictStats.query_result)
    (p : DistrictStats.search_params) (year : string) :
  DistrictStats.param_year p = Some year ->
  Js.parseInt year = None ->
  DistrictStats.build_query p
  = DistrictStats.build_query (DistrictStats.without_year p)
  /\ (forall column value,
        DistrictStats.eq column value
        ∉ DistrictStats.filters (DistrictStats.build_query p))
  /\ DistrictStats.GET repository p
     = DistrictStats.GET repository (DistrictStats.without_year p).
Proof.
  intros Hyear Hnan.
  assert (Hq : DistrictStats.build_query p
               = DistrictStats.build_query (DistrictStats.without_year p)).
  { unfold DistrictStats.build_query. simpl. rewrite Hyear.
    destruct year as [|c rest]; simpl; [reflexivity|].
    rewrite Hnan. reflexivity. }
  split; [exact Hq|]. split.
  - intros column value. rewrite Hq.
    unfold DistrictStats.build_query, DistrictStats.add_filter. simpl.
    destruct (Js.truthy_string (DistrictStats.param_district p));
      destruct (Js.truthy_string (DistrictStats.param_taluka p));
      destruct (Js.truthy_string (DistrictStats.param_crop p));
      simpl; rewrite ?elem_of_cons, ?elem_of_nil;
      intros H; repeat destruct H as [H|H]; discriminate || contradiction.
  - unfold DistrictStats.GET. rewrite Hq. reflexivity.
Qed.

Lemma unparsable_year_is_ignored_witness :
  Js.parseInt "abc" = None
  /\ DistrictStats.GET DistrictStats.by_year DistrictStats.request_with_bad_year
     = DistrictStats.GET DistrictStats.by_year
         (DistrictStats.without_year DistrictStats.request_with_bad_year).
Proof.
  split; [reflexivity|].
  apply (unparsable_year_is_ignored
           DistrictStats.by_year DistrictStats.request_with_bad_year "abc");
    reflexivity.
Defined.

Section ProfileFacts.
Import Profile.

Variable store : Type.
Variable select_maybeSingle : string -> store -> option query_result.
Variable upsert_single :
  farmer_profile -> store -> store * option query_result.

(** With an identity, each handler makes exactly one repository call. *)
Lemma GET_authenticated_selects userId w :
  Js.truthy_string (Some userId) = Some userId ->
  calls (snd (GET store select_maybeSingle (Some userId) w))
  = calls w ++ [select_eq_user_id userId].
Proof.
  intros Hid. unfold GET. rewrite Hid. unfold bind, do_select.
  destruct (select_maybeSingle userId (db w)) as [res|]; [|reflexivity].
  destruct (error res); reflexivity.
Qed.

Lemma POST_authenticated_upserts userId body w :
  Js.truthy_string (Some userId) = Some userId ->
  exists row,
    user_id row = userId
    /\ calls (snd (POST store upsert_single (Some userId) (Some body) w))
       = calls w ++ [upsert_on_user_id row].
Proof.
  intros Hid. unfold POST. rewrite Hid. unfold bind, do_upsert.
  eexists. split; cycle 1.
  - destruct (upsert_single _ (db w)) as [db' [res|]]; [|reflexivity].
    destruct (error res); reflexivity.
  - reflexivity.
Qed.

End ProfileFacts.

(** C8.  A profile request, read or write, whose caller identity is absent
    is answered 401 "Unauthorized" with the store and the list of repository
    calls exactly as they were: no query runs and nothing is written,
    whatever the repository and whatever the request body. *)
Theorem unauthenticated_profile_request_rejected
    (store : Type)
    (select_maybeSingle : string -> store -> option Profile.query_result)
    (upsert_single :
       Profile.farmer_profile -> store -> store * option Profile.query_result)
    (auth : option string) (body : option Profile.payload)
    (w : Profile.world store) :
  Js.truthy_string auth = None ->
  Profile.GET store select_maybeSingle auth w
  = (Profile.json_error "Unauthorized" 401, w)
  /\ Profile.POST store upsert_single auth body w
     = (Profile.json_error "Unauthorized" 401, w).
Proof.
  intros Hanon. unfold Profile.GET, Profile.POST. rewrite Hanon.
  split; reflexivity.
Qed.

(** Signed out, against a store that holds one profile; and, for contrast,
    the same write signed in. *)
Lemma unauthenticated_profile_request_rejected_witness :
  Profile.GET _ Profile.table_select None Profile.one_profile
  = (Profile.json_error "Unauthorized" 401, Profile.one_profile)
  /\ Profile.POST _ Profile.table_upsert None (Some Profile.body_asha)
       Profile.one_profile
     = (Profile.json_error "Unauthorized" 401, Profile.one_profile)
  /\ length (Profile.calls
               (snd (Profile.POST _ Profile.table_upsert (Some "user_2")
                       (Some Profile.body_asha) Profile.one_profile))) = 1%nat.
Proof.
  destruct (unauthenticated_profile_request_rejected
              (gmap string Profile.farmer_profile)
              Profile.table_select Profile.table_upsert
              None (Some Profile.body_asha) Profile.one_profile eq_refl)
    as [Hget Hpost].
  split; [exact Hget|]. split; [exact Hpost|]. reflexivity.
Defined.

(** ** Sanity checks of the primitives on concrete inputs *)

Example parseInt_leading_number :
  Js.parseInt " 2024abc" = Some 2024%Z /\ Js.parseInt "-0x1F" = Some (-31)%Z.
Proof. split; reflexivity. Qed.

Example parseInt_not_a_number :
  Js.parseInt "abc" = None /\ Js.parseInt "" = None /\ Js.parseInt "-" = None.
Proof. repeat split; reflexivity. Qed.

Example rounding_of_ties :
  Js.toFixed1 (5 # 100) = 1%Z /\ Js.toFixed1 (- (5 # 100)) = (-1)%Z
  /\ Js.Math_round (5 # 2) = 3%Z /\ Js.Math_round (- (5 # 2)) = (-2)%Z.
Proof. repeat split; reflexivity. Qed.

(** A year that does parse adds the exact-match condition, and the sample
    repository then answers with no record for a year it has none of. *)
Example parsable_year_filters :
  let p := {| DistrictStats.param_district := None;
              DistrictStats.param_taluka := None;
              DistrictStats.param_crop := None;
              DistrictStats.param_year := Some "2022";
              DistrictStats.param_limit := Some "10" |} in
  DistrictStats.build_query p
  = {| DistrictStats.from := "district_statistics";
       DistrictStats.select := "*";
       DistrictStats.order := [("recorded_year", false); ("district", true)];
       DistrictStats.limit := Some 10%Z;
       DistrictStats.filters := [DistrictStats.eq "recorded_year" 2022%Z] |}
  /\ DistrictStats.GET DistrictStats.by_year p
     = DistrictStats.json_success (Some []) (Some DistrictStats.zero_stats) 0
  /\ DistrictStats.GET DistrictStats.by_year (DistrictStats.without_year p)
     <> DistrictStats.GET DistrictStats.by_year p.
Proof. repeat split; try reflexivity. discriminate. Qed.

(* ===================================================================== *)
(** * Part III: further properties of the handlers and the schema         *)
(* ===================================================================== *)

Section FindFacts.
Context {A : Type}.

(** [find] returns the first element that passes, and only that. *)
Lemma find_first (f : A -> bool) (l : list A) :
  match List.find f l with
  | Some x =>
      exists n, l !! n = Some x /\ f x = true
                /\ forall m y, (m < n)%nat -> l !! m = Some y -> f y = false
  | None => forall m y, l !! m = Some y -> f y = false
  end.
Proof.
  induction l as [|a l IH]; simpl.
  - intros m y H. rewrite lookup_nil in H. discriminate.
  - destruct (f a) eqn:Ha.
    + exists 0%nat. split; [reflexivity|]. split; [exact Ha|]. intros m y Hm. lia.
    + destruct (List.find f l) as [x|].
      * destruct IH as (n & Hn & Hx & Hbefore).
        exists (S n). split; [exact Hn|]. split; [exact Hx|].
        intros [|m] y Hm Hy; simpl in Hy.
        -- injection Hy as <-. exact Ha.
        -- apply (Hbefore m y); [lia | exact Hy].
      * intros [|m] y Hy; simpl in Hy.
        -- injection Hy as <-. exact Ha.
        -- apply (IH m y Hy).
Qed.

End FindFacts.

(** X1.  The previous observation of the row at position [i] is the nearest
    older row of the same series: it sits at a later position [j], passes
    the series test, and no row strictly between [i] and [j] passes it.
    When there is none, no later row passes the test. *)
Theorem previousPrice_is_nearest_older_match
    (array : list MarketPrices.market_price) (i : nat)
    (price : MarketPrices.market_price) :
  match MarketPrices.previousPrice array i price with
  | Some previous =>
      exists j, (i < j)%nat /\ array !! j = Some previous
                /\ MarketPrices.same_series price previous = true
                /\ forall k p, (i < k < j)%nat -> array !! k = Some p ->
                               MarketPrices.same_series price p = false
  | None =>
      forall k p, (i < k)%nat -> array !! k = Some p ->
                  MarketPrices.same_series price p = false
  end.
Proof.
  unfold MarketPrices.previousPrice.
  pose proof (find_first (MarketPrices.same_series price) (drop (S i) array)) as H.
  destruct (List.find _ _) as [previous|].
  - destruct H as (n & Hn & Hsame & Hbefore).
    rewrite lookup_drop in Hn.
    exists (S i + n)%nat. split; [lia|]. split; [exact Hn|]. split; [exact Hsame|].
    intros k p Hk Hp. apply (Hbefore (k - S i)%nat p); [lia|].
    rewrite lookup_drop. replace (S i + (k - S i))%nat with k by lia. exact Hp.
  - intros k p Hk Hp. apply (H (k - S i)%nat p).
    rewrite lookup_drop. replace (S i + (k - S i))%nat with k by lia. exact Hp.
Qed.

Section TrendFacts.
Import MarketPrices.
Local Open Scope Q_scope.



(** The row a position is processed to, when there is one. *)
Lemma processedPrices_row array i r :
  processedPrices (Some array) !! i = Some r ->
  exists price, array !! i = Some price /\ r = process array i price.
Proof.
  rewrite processedPrices_lookup.
  destruct (array !! i) as [price|]; simpl; [|discriminate].
  intros [= <-]. exists price. split; reflexivity.
Qed.

Lemma process_price_row array i price :
  price_row (process array i price) = price.
Proof.
  unfold process. destruct (classify _ _) as [t pct]. reflexivity.
Qed.

(** Nothing after the last position. *)
Lemma previousPrice_last array i price :
  (length array <= S i)%nat -> previousPrice array i price = None.
Proof.
  intros H. unfold previousPrice. rewrite drop_ge by exact H. reflexivity.
Qed.

Lemma process_no_previous array i price :
  previousPrice array i price = None ->
  trend (process array i price) = stable
  /\ change_percent (process array i price) == 0
  /\ change_amount (process array i price) = 0%Z.
Proof.
  intros Hnone. unfold process. rewrite Hnone. simpl.
  split; [reflexivity|]. split; [reflexivity|].
  apply Math_round_zero. tenths. lra.
Qed.

End TrendFacts.



(** X3.  The handler annotates the rows one for one and in order, and the
    last row of the result set, which has nothing older after it, is always
    "stable" with changePercent 0 and change amount 0. *)
Theorem oldest_row_is_always_stable
    (array : list MarketPrices.market_price) (i : nat)
    (r : MarketPrices.processed_price) :
  MarketPrices.processedPrices (Some array) !! i = Some r ->
  length (MarketPrices.processedPrices (Some array)) = length array
  /\ array !! i = Some (MarketPrices.price_row r)
  /\ (S i = length array ->
      MarketPrices.trend r = MarketPrices.stable
      /\ (MarketPrices.change_percent r == 0)%Q
      /\ MarketPrices.change_amount r = 0%Z).
Proof.
  intros Hr.
  split; [apply length_imap|].
  apply processedPrices_row in Hr as (price & Hrow & ->).
  rewrite process_price_row. split; [exact Hrow|].
  intros Hlast. apply process_no_previous, previousPrice_last. lia.
Qed.

Lemma oldest_row_is_always_stable_witness :
  exists r,
    MarketPrices.processedPrices (Some MarketPrices.wheat_rise) !! 1%nat = Some r
    /\ MarketPrices.trend r = MarketPrices.stable
    /\ (MarketPrices.change_percent r == 0)%Q
    /\ MarketPrices.change_amount r = 0%Z.
Proof.
  eexists. split; [reflexivity|].
  eapply (oldest_row_is_always_stable MarketPrices.wheat_rise 1);
    reflexivity.
Defined.

Section TrendCountFacts.
Import MarketPrices MarketRoute.



End TrendCountFacts.


Section GroupingFacts.
Import MarketPrices MarketRoute.

Lemma members_app key l1 l2 :
  members key (l1 ++ l2) = members key l1 ++ members key l2.
Proof. unfold members. apply List.filter_app. Qed.

Lemma members_own p : members (group_key p) [p] = [p].
Proof. unfold members. simpl. rewrite String.eqb_refl. reflexivity. Qed.

Lemma members_other key p : group_key p <> key -> members key [p] = [].
Proof.
  intros Hne. unfold members. simpl.
  destruct (String.eqb_spec (group_key p) key); [contradiction | reflexivity].
Qed.

Lemma members_elem key l p : p ∈ members key l <-> p ∈ l /\ group_key p = key.
Proof.
  unfold members. rewrite !list_elem_of_In, filter_In.
  destruct (String.eqb_spec (group_key p) key); intuition congruence.
Qed.

Lemma group_of_Some key l group :
  group_of key l = Some group <-> group = members key l /\ group <> [].
Proof.
  unfold group_of. destruct (members key l) as [|a m]; split.
  - discriminate.
  - intros [-> H]. contradiction.
  - intros [= <-]. split; [reflexivity | discriminate].
  - intros [-> _]. reflexivity.
Qed.

Lemma group_of_snoc_own l p :
  group_of (group_key p) (l ++ [p]) = Some (members (group_key p) l ++ [p]).
Proof.
  unfold group_of. rewrite members_app, members_own.
  destruct (members (group_key p) l); reflexivity.
Qed.

Lemma group_of_snoc_other key l p :
  group_key p <> key -> group_of key (l ++ [p]) = group_of key l.
Proof.
  intros Hne. unfold group_of.
  rewrite members_app, (members_other key p Hne), app_nil_r. reflexivity.
Qed.

(** Once the callback has thrown, the fold is over. *)
Lemma group_fold_thrown rest : fold_left group_step rest None = None.
Proof. induction rest as [|p rest IH]; simpl; [reflexivity | exact IH]. Qed.

(** The invariant of the grouping fold: the object holds, under each key,
    the members seen so far; no key of it is an inherited property. *)
Lemma group_fold rest : forall seen (g : gmap string (list processed_price)),
  (forall key, g !! key = group_of key seen) ->
  Forall (fun p => Js.inherited (group_key p) = false) seen ->
  match fold_left group_step rest (Some g) with
  | Some g' =>
      (forall key, g' !! key = group_of key (seen ++ rest))
      /\ Forall (fun p => Js.inherited (group_key p) = false) rest
  | None => Exists (fun p => Js.inherited (group_key p) = true) rest
  end.
Proof.
  induction rest as [|p rest IH]; intros seen g Hinv Hseen.
  - simpl. rewrite app_nil_r. split; [exact Hinv | constructor].
  - assert (Hstep : forall g1,
              (forall key, g1 !! key = group_of key (seen ++ [p])) ->
              Js.inherited (group_key p) = false ->
              match fold_left group_step rest (Some g1) with
              | Some g' =>
                  (forall key, g' !! key = group_of key (seen ++ p :: rest))
                  /\ Forall (fun p => Js.inherited (group_key p) = false) (p :: rest)
              | None =>
                  Exists (fun p => Js.inherited (group_key p) = true) (p :: rest)
              end).
    { intros g1 Hg1 Hp.
      specialize (IH (seen ++ [p]) g1 Hg1).
      rewrite <- app_assoc in IH. simpl in IH.
      destruct (fold_left group_step rest (Some g1)) as [g'|].
      - destruct IH as [Hall Hrest].
        + apply Forall_app. split; [exact Hseen|]. constructor; [exact Hp | constructor].
        + split; [exact Hall|]. constructor; assumption.
      - apply Exists_cons_tl. apply IH.
        apply Forall_app. split; [exact Hseen|]. constructor; [exact Hp | constructor]. }
    simpl. destruct (g !! group_key p) as [group|] eqn:Hlook.
    + rewrite Hinv in Hlook. apply group_of_Some in Hlook as [-> Hne].
      apply Hstep.
      * intros key. destruct (decide (group_key p = key)) as [<-|Hk].
        -- rewrite lookup_insert_eq, group_of_snoc_own. reflexivity.
        -- rewrite lookup_insert_ne by exact Hk.
           rewrite (group_of_snoc_other key seen p Hk). apply Hinv.
      * destruct (members (group_key p) seen) as [|q m] eqn:Hm; [contradiction|].
        assert (Hq : q ∈ members (group_key p) seen) by (rewrite Hm; left).
        apply members_elem in Hq as [Hq Hkey].
        rewrite Forall_forall in Hseen. rewrite <- Hkey. apply Hseen, Hq.
    + destruct (Js.inherited (group_key p)) eqn:Hinh.
      * rewrite group_fold_thrown. apply Exists_cons_hd. exact Hinh.
      * apply Hstep; [|reflexivity].
        intros key. destruct (decide (group_key p = key)) as [<-|Hk].
        -- rewrite lookup_insert_eq, group_of_snoc_own.
           rewrite Hinv in Hlook. unfold group_of in Hlook.
           destruct (members (group_key p) seen); [reflexivity | discriminate].
        -- rewrite lookup_insert_ne by exact Hk.
           rewrite (group_of_snoc_other key seen p Hk). apply Hinv.
Qed.

Lemma groupedPrices_spec processed :
  match groupedPrices processed with
  | Some grouped =>
      (forall key, grouped !! key = group_of key processed)
      /\ Forall (fun p => Js.inherited (group_key p) = false) processed
  | None => Exists (fun p => Js.inherited (group_key p) = true) processed
  end.
Proof.
  unfold groupedPrices.
  apply (group_fold processed [] ∅); [|constructor].
  intros key. rewrite lookup_empty. reflexivity.
Qed.

End GroupingFacts.

(** X5.  When the grouping succeeds, the object holds under each crop key
    exactly the processed prices of that crop, in their original order, and
    no empty group; every processed price is in the group of its key; and
    [total_crops] is the number of distinct crop keys. *)
Theorem grouped_prices_partition_by_crop
    (processed : list MarketPrices.processed_price)
    (grouped : gmap string (list MarketPrices.processed_price)) :
  MarketRoute.groupedPrices processed = Some grouped ->
  (forall key group,
      grouped !! key = Some group
      <-> group = MarketRoute.members key processed /\ group <> [])
  /\ (forall p, p ∈ processed ->
        exists group,
          grouped !! MarketRoute.group_key p = Some group /\ p ∈ group)
  /\ MarketRoute.total_crops (MarketRoute.marketStats grouped processed)
     = length (MarketRoute.crop_keys processed).
Proof.
  intros Hg. pose proof (groupedPrices_spec processed) as H.
  rewrite Hg in H. destruct H as [Hall _].
  split; [|split].
  - intros key group. rewrite Hall. apply group_of_Some.
  - intros p Hp.
    assert (Hin : p ∈ MarketRoute.members (MarketRoute.group_key p) processed)
      by (apply members_elem; split; [exact Hp | reflexivity]).
    exists (MarketRoute.members (MarketRoute.group_key p) processed).
    split; [|exact Hin].
    rewrite Hall. apply group_of_Some. split; [reflexivity|].
    intros E. rewrite E in Hin. apply elem_of_nil in Hin. exact Hin.
  - simpl. unfold MarketRoute.crop_keys.
    rewrite <- (size_list_to_set (C := gset string)) by apply NoDup_remove_dups.
    rewrite <- size_dom. f_equal. apply set_eq. intros key.
    rewrite elem_of_dom, elem_of_list_to_set, elem_of_remove_dups, Hall.
    rewrite list_elem_of_fmap. split.
    + intros [group Hgroup]. apply group_of_Some in Hgroup as [-> Hne].
      destruct (MarketRoute.members key processed) as [|q m] eqn:Hm; [contradiction|].
      assert (Hq : q ∈ MarketRoute.members key processed) by (rewrite Hm; left).
      apply members_elem in Hq as [Hq Hkey]. exists q. split; [symmetry|]; assumption.
    + intros (q & -> & Hq).
      exists (MarketRoute.members (MarketRoute.group_key q) processed).
      apply group_of_Some. split; [reflexivity|].
      intros E.
      assert (Hin : q ∈ MarketRoute.members (MarketRoute.group_key q) processed)
        by (apply members_elem; split; [exact Hq | reflexivity]).
      rewrite E in Hin. apply elem_of_nil in Hin. exact Hin.
Qed.

Lemma grouped_prices_partition_by_crop_witness :
  exists grouped,
    MarketRoute.groupedPrices
      (MarketPrices.processedPrices (Some MarketRoute.mixed_market)) = Some grouped
    /\ MarketRoute.total_crops
         (MarketRoute.marketStats grouped
            (MarketPrices.processedPrices (Some MarketRoute.mixed_market))) = 2%nat
    /\ (length <$> grouped !! "Wheat") = Some 2%nat.
Proof.
  destruct (MarketRoute.groupedPrices
              (MarketPrices.processedPrices (Some MarketRoute.mixed_market)))
    as [grouped|] eqn:Hg; [|vm_compute in Hg; discriminate].
  destruct (grouped_prices_partition_by_crop _ grouped Hg) as (Hgroups & _ & Htotal).
  exists grouped. split; [reflexivity|]. split.
  - rewrite Htotal. reflexivity.
  - assert (Hw : grouped !! "Wheat"
                 = Some (MarketRoute.members "Wheat"
                           (MarketPrices.processedPrices
                              (Some MarketRoute.mixed_market)))).
    { apply Hgroups. split; [reflexivity | discriminate]. }
    rewrite Hw. reflexivity.
Defined.

Section CollisionFacts.
Import MarketPrices MarketRoute.

Lemma group_key_process array i price :
  group_key (process array i price) = Js.property_key (crop_name price).
Proof. unfold group_key. rewrite process_price_row. reflexivity. Qed.

Lemma processed_elem array r :
  r ∈ processedPrices (Some array) ->
  exists i price, array !! i = Some price /\ r = process array i price.
Proof.
  intros Hr. apply list_elem_of_lookup in Hr as [i Hi].
  apply processedPrices_row in Hi as (price & Hrow & ->).
  exists i, price. split; [exact Hrow | reflexivity].
Qed.

Lemma collision_processed array :
  Exists (fun p => Js.inherited (group_key p) = true) (processedPrices (Some array))
  <-> Exists collides array.
Proof.
  rewrite !Exists_exists. split.
  - intros (r & Hr & Hinh). apply processed_elem in Hr as (i & price & Hrow & ->).
    rewrite group_key_process in Hinh.
    exists price. split; [|exact Hinh].
    apply list_elem_of_lookup. exists i. exact Hrow.
  - intros (price & Hprice & Hinh).
    apply list_elem_of_lookup in Hprice as [i Hrow].
    exists (process array i price). split.
    + apply list_elem_of_lookup. exists i.
      rewrite processedPrices_lookup, Hrow. reflexivity.
    + rewrite group_key_process. exact Hinh.
Qed.

End CollisionFacts.

(** X6.  The grouping files rows in a plain object, so a row whose crop
    name is the name of an inherited object property ("constructor",
    "toString", ...) makes the whole request fail with 500 "Internal server
    error"; without such a row a repository answer without error always
    yields the success response. *)
Theorem inherited_crop_name_fails_request
    (repository : DistrictStats.query -> option MarketRoute.query_result)
    (now : string) (p : MarketRoute.search_params)
    (array : list MarketPrices.market_price) :
  repository (MarketRoute.build_query p)
  = Some {| MarketRoute.data := Some array; MarketRoute.error := None |} ->
  (Exists MarketRoute.collides array ->
   MarketRoute.GET repository now p
   = MarketRoute.json_error "Internal server error" 500)
  /\ (Forall (fun price => ~ MarketRoute.collides price) array ->
      exists grouped,
        MarketRoute.GET repository now p
        = MarketRoute.json_success
            (MarketPrices.processedPrices (Some array)) grouped
            (MarketRoute.marketStats grouped
               (MarketPrices.processedPrices (Some array)))
            (MarketRoute.param_crop p, MarketRoute.param_state p,
             MarketRoute.requested_limit p)
            "database" now).
Proof.
  intros Hres. unfold MarketRoute.GET. rewrite Hres. simpl.
  pose proof (groupedPrices_spec (MarketPrices.processedPrices (Some array))) as H.
  split.
  - intros Hcol.
    destruct (MarketRoute.groupedPrices _) as [grouped|]; [|reflexivity].
    destruct H as [_ Hnone]. apply collision_processed in Hcol.
    apply Exists_exists in Hcol as (r & Hr & Hinh).
    rewrite Forall_forall in Hnone. rewrite (Hnone r Hr) in Hinh. discriminate.
  - intros Hfree.
    destruct (MarketRoute.groupedPrices _) as [grouped|].
    + exists grouped. reflexivity.
    + apply collision_processed, Exists_exists in H as (price & Hprice & Hcol).
      rewrite Forall_forall in Hfree. destruct (Hfree price Hprice Hcol).
Qed.

Lemma inherited_crop_name_fails_request_witness :
  MarketRoute.GET (MarketRoute.serves MarketRoute.method_market) "2024-02-03T00:00:00.000Z"
    MarketRoute.any_request
  = MarketRoute.json_error "Internal server error" 500.
Proof.
  apply (inherited_crop_name_fails_request
           (MarketRoute.serves MarketRoute.method_market) _
           MarketRoute.any_request MarketRoute.method_market eq_refl).
  apply Exists_cons_tl. apply Exists_cons_hd. reflexivity.
Defined.

Section PriceStatisticsFacts.
Import MarketPrices MarketRoute.
Local Open Scope Q_scope.

(** A [NaN] operand makes the result [NaN], and it stays so. *)
Lemma fold_add_nan (l : list processed_price) :
  fold_left (fun sum p => Js.add sum (price_per_quintal (price_row p))) l None = None.
Proof. induction l as [|p l IH]; simpl; [reflexivity | exact IH]. Qed.

Lemma fold_max_nan (l : list (option Q)) : fold_left Js.max2 l None = None.
Proof. induction l as [|x l IH]; simpl; [reflexivity | exact IH]. Qed.

Lemma fold_min_nan (l : list (option Q)) : fold_left Js.min2 l None = None.
Proof. induction l as [|x l IH]; simpl; [reflexivity | exact IH]. Qed.

Lemma fold_add_missing (l : list processed_price) acc :
  Exists (fun p => price_per_quintal (price_row p) = None) l ->
  fold_left (fun sum p => Js.add sum (price_per_quintal (price_row p))) l acc = None.
Proof.
  intros H. revert acc. induction H as [p l Hp | p l _ IH]; intros acc; simpl.
  - rewrite Hp. destruct acc; simpl; apply fold_add_nan.
  - apply IH.
Qed.

Lemma fold_max_missing (l : list (option Q)) acc :
  Exists (fun x => x = None) (acc :: l) -> fold_left Js.max2 l acc = None.
Proof.
  revert acc. induction l as [|x l IH]; intros acc H.
  - apply Exists_cons in H as [-> | H]; [reflexivity|].
    apply Exists_nil in H. destruct H.
  - simpl. apply Exists_cons in H as [-> | H].
    + simpl. apply fold_max_nan.
    + apply Exists_cons in H as [-> | H].
      * destruct acc; simpl; apply fold_max_nan.
      * apply IH. apply Exists_cons_tl. exact H.
Qed.

Lemma fold_min_missing (l : list (option Q)) acc :
  Exists (fun x => x = None) (acc :: l) -> fold_left Js.min2 l acc = None.
Proof.
  revert acc. induction l as [|x l IH]; intros acc H.
  - apply Exists_cons in H as [-> | H]; [reflexivity|].
    apply Exists_nil in H. destruct H.
  - simpl. apply Exists_cons in H as [-> | H].
    + simpl. apply fold_min_nan.
    + apply Exists_cons in H as [-> | H].
      * destruct acc; simpl; apply fold_min_nan.
      * apply IH. apply Exists_cons_tl. exact H.
Qed.

(** With every operand a number, the maximum is a number that bounds them
    all from above and the running value from below. *)
Lemma fold_max_numbers (l : list (option Q)) : forall x,
  Forall is_Some l ->
  exists hi, fold_left Js.max2 l (Some x) = Some hi
             /\ x <= hi
             /\ forall q, Some q ∈ l -> q <= hi.
Proof.
  induction l as [|y l IH]; intros x Hall.
  - exists x. split; [reflexivity|]. split; [apply Qle_refl|].
    intros q Hq. apply elem_of_nil in Hq. destruct Hq.
  - apply Forall_cons in Hall as [[q Hy] Hall]. subst y. simpl.
    destruct (IH (Qmax x q) Hall) as (hi & Hfold & Hx & Hrest).
    exists hi. split; [exact Hfold|]. split.
    + eapply Qle_trans; [apply Q.le_max_l | exact Hx].
    + intros q' Hq'. apply elem_of_cons in Hq' as [[= ->] | Hq'].
      * eapply Qle_trans; [apply Q.le_max_r | exact Hx].
      * apply Hrest, Hq'.
Qed.

Lemma fold_min_numbers (l : list (option Q)) : forall x,
  Forall is_Some l ->
  exists lo, fold_left Js.min2 l (Some x) = Some lo
             /\ lo <= x
             /\ forall q, Some q ∈ l -> lo <= q.
Proof.
  induction l as [|y l IH]; intros x Hall.
  - exists x. split; [reflexivity|]. split; [apply Qle_refl|].
    intros q Hq. apply elem_of_nil in Hq. destruct Hq.
  - apply Forall_cons in Hall as [[q Hy] Hall]. subst y. simpl.
    destruct (IH (Qmin x q) Hall) as (lo & Hfold & Hx & Hrest).
    exists lo. split; [exact Hfold|]. split.
    + eapply Qle_trans; [exact Hx | apply Q.le_min_l].
    + intros q' Hq'. apply elem_of_cons in Hq' as [[= ->] | Hq'].
      * eapply Qle_trans; [exact Hx | apply Q.le_min_r].
      * apply Hrest, Hq'.
Qed.

(** With every price a number between [lo] and [hi], the running sum grows
    by between [lo] and [hi] per row. *)
Lemma fold_add_numbers lo hi (l : list processed_price) : forall acc,
  Forall (fun p => exists q, price_per_quintal (price_row p) = Some q
                             /\ lo <= q <= hi) l ->
  exists total,
    fold_left (fun sum p => Js.add sum (price_per_quintal (price_row p))) l (Some acc)
    = Some total
    /\ acc + lo * inject_Z (Z.of_nat (length l)) <= total
    /\ total <= acc + hi * inject_Z (Z.of_nat (length l)).
Proof.
  induction l as [|p l IH]; intros acc Hall.
  - exists acc. split; [reflexivity|].
    change (inject_Z (Z.of_nat (length (@nil processed_price)))) with 0.
    split; lra.
  - apply Forall_cons in Hall as [(q & Hq & Hlo & Hhi) Hall].
    cbn [fold_left]. rewrite Hq. simpl Js.add.
    destruct (IH (acc + q) Hall) as (total & Hfold & Hl & Hh).
    exists total. split; [exact Hfold|].
    cbn [length]. rewrite Nat2Z.inj_succ. unfold Z.succ.
    rewrite inject_Z_plus. change (inject_Z 1) with 1. split; lra.
Qed.

Lemma Math_round_mono x y : x <= y -> (Js.Math_round x <= Js.Math_round y)%Z.
Proof. intros H. unfold Js.Math_round. apply Qfloor_resp_le. lra. Qed.

End PriceStatisticsFacts.

Section PriceStatisticsRows.
Import MarketPrices MarketRoute.
Local Open Scope Q_scope.

Lemma quintal_prices_numbers processed :
  Forall (fun p => is_Some (price_per_quintal (price_row p))) processed ->
  Forall is_Some (quintal_prices processed).
Proof.
  induction 1 as [|p l Hp _ IH]; simpl; constructor; assumption.
Qed.

Lemma quintal_prices_elem processed p :
  p ∈ processed -> price_per_quintal (price_row p) ∈ quintal_prices processed.
Proof.
  induction 1 as [p l | p p' l _ IH]; simpl; [left | right; exact IH].
Qed.

Lemma quintal_prices_missing processed :
  Exists (fun p => price_per_quintal (price_row p) = None) processed ->
  Exists (fun x => x = None) (quintal_prices processed).
Proof.
  induction 1 as [p l Hp | p l _ IH]; simpl;
    [apply Exists_cons_hd; exact Hp | apply Exists_cons_tl; exact IH].
Qed.

End PriceStatisticsRows.

(** X7.  When the result is not empty and every row has a price per
    quintal, the three price statistics are numbers: every row's price lies
    between [lowest_price] and [highest_price], and [avg_price], the rounded
    mean, lies between the two bounds rounded. *)
Theorem price_statistics_bracket_the_prices
    (processed : list MarketPrices.processed_price)
    (grouped : gmap string (list MarketPrices.processed_price)) :
  processed <> [] ->
  Forall (fun p => is_Some (MarketPrices.price_per_quintal (MarketPrices.price_row p)))
    processed ->
  exists lo hi avg,
    MarketRoute.lowest_price (MarketRoute.marketStats grouped processed) = Some lo
    /\ MarketRoute.highest_price (MarketRoute.marketStats grouped processed) = Some hi
    /\ MarketRoute.avg_price (MarketRoute.marketStats grouped processed) = Some avg
    /\ (forall p q,
          p ∈ processed ->
          MarketPrices.price_per_quintal (MarketPrices.price_row p) = Some q ->
          (lo <= q <= hi)%Q)
    /\ (Js.Math_round lo <= avg <= Js.Math_round hi)%Z.
Proof.
  intros Hne Hall.
  destruct processed as [|p0 rest] eqn:Hprocessed; [contradiction|].
  rewrite <- Hprocessed in *. clear Hne.
  pose proof (quintal_prices_numbers processed Hall) as Hnum.
  assert (Hq0 : exists q0 tail,
             MarketRoute.quintal_prices processed = Some q0 :: tail).
  { rewrite Hprocessed in *. simpl in *.
    apply Forall_cons in Hnum as [[q0 Hq0] _].
    rewrite Hq0. eauto. }
  destruct Hq0 as (q0 & tail & Hqs). rewrite Hqs in Hnum.
  apply Forall_cons in Hnum as [_ Htail].
  destruct (fold_max_numbers tail q0 Htail) as (hi & Hmax & Hhi0 & Hhi).
  destruct (fold_min_numbers tail q0 Htail) as (lo & Hmin & Hlo0 & Hlo).
  assert (Hbounds : forall p q,
             p ∈ processed ->
             MarketPrices.price_per_quintal (MarketPrices.price_row p) = Some q ->
             (lo <= q <= hi)%Q).
  { intros p q Hp Hq. apply quintal_prices_elem in Hp.
    rewrite Hq, Hqs in Hp. apply elem_of_cons in Hp as [[= ->] | Hp].
    - split; assumption.
    - split; [apply Hlo | apply Hhi]; exact Hp. }
  assert (Hrows : Forall (fun p => exists q,
                     MarketPrices.price_per_quintal (MarketPrices.price_row p) = Some q
                     /\ (lo <= q <= hi)%Q) processed).
  { rewrite Forall_forall in Hall. apply Forall_forall. intros p Hp.
    destruct (Hall p Hp) as [q Hq]. exists q. split; [exact Hq|].
    exact (Hbounds p q Hp Hq). }
  destruct (fold_add_numbers lo hi processed 0%Q Hrows) as (total & Hsum & Htl & Hth).
  set (n := inject_Z (Z.of_nat (length processed))) in *.
  assert (Hn : (0 < n)%Q).
  { unfold n. rewrite Hprocessed. cbn [length]. rewrite Nat2Z.inj_succ.
    change 0%Q with (inject_Z 0). rewrite <- Zlt_Qlt. lia. }
  exists lo, hi, (Js.Math_round (total / n)).
  unfold MarketRoute.marketStats. cbn [MarketRoute.lowest_price
    MarketRoute.highest_price MarketRoute.avg_price]. rewrite Hqs.
  split; [exact Hmin|]. split; [exact Hmax|]. split.
  - assert (Hpos : (0 <? length processed)%nat = true).
    { rewrite Hprocessed. reflexivity. }
    rewrite Hpos, Hsum. reflexivity.
  - split; [exact Hbounds|]. split; apply Math_round_mono.
    + apply Qle_shift_div_l; [exact Hn | lra].
    + apply Qle_shift_div_r; [exact Hn | lra].
Qed.

Lemma price_statistics_bracket_the_prices_witness :
  exists grouped stats,
    MarketRoute.GET (MarketRoute.serves MarketRoute.mixed_market) "now"
      MarketRoute.any_request
    = MarketRoute.json_success
        (MarketPrices.processedPrices (Some MarketRoute.mixed_market))
        grouped stats (None, None, Some 50%Z) "database" "now"
    /\ MarketRoute.avg_price stats = Some 2500%Z
    /\ (exists lo hi,
          MarketRoute.lowest_price stats = Some lo
          /\ MarketRoute.highest_price stats = Some hi
          /\ (Js.Math_round lo <= 2500 <= Js.Math_round hi)%Z).
Proof.
  set (processed := MarketPrices.processedPrices (Some MarketRoute.mixed_market)).
  destruct (MarketRoute.groupedPrices processed) as [grouped|] eqn:Hg;
    [|vm_compute in Hg; discriminate].
  exists grouped, (MarketRoute.marketStats grouped processed).
  assert (Hne : processed <> []) by discriminate.
  assert (Hall : Forall (fun p => is_Some (MarketPrices.price_per_quintal
                                             (MarketPrices.price_row p))) processed).
  { repeat constructor; eexists; reflexivity. }
  destruct (price_statistics_bracket_the_prices processed grouped Hne Hall)
    as (lo & hi & avg & Hlo & Hhi & Havg & _ & Hround).
  assert (Hav : MarketRoute.avg_price (MarketRoute.marketStats grouped processed)
                = Some 2500%Z) by reflexivity.
  split.
  - unfold MarketRoute.GET, MarketRoute.serves.
    cbn [MarketRoute.error MarketRoute.data]. fold processed. rewrite Hg.
    reflexivity.
  - split; [exact Hav|].
    exists lo, hi. split; [exact Hlo|]. split; [exact Hhi|].
    rewrite Hav in Havg. injection Havg as <-. exact Hround.
Defined.

(** X8.  When a row lacks the price per quintal (the table has no such
    column), the sum and the extremes are computed on [undefined]:
    [avg_price], [highest_price] and [lowest_price] are all [NaN], while the
    trend counts are unaffected. *)
Theorem missing_price_column_poisons_statistics
    (processed : list MarketPrices.processed_price)
    (grouped : gmap string (list MarketPrices.processed_price)) :
  Exists (fun p => MarketPrices.price_per_quintal (MarketPrices.price_row p) = None)
    processed ->
  MarketRoute.avg_price (MarketRoute.marketStats grouped processed) = None
  /\ MarketRoute.highest_price (MarketRoute.marketStats grouped processed) = None
  /\ MarketRoute.lowest_price (MarketRoute.marketStats grouped processed) = None.
Proof.
  intros Hmiss.
  pose proof (quintal_prices_missing processed Hmiss) as Hqs.
  unfold MarketRoute.marketStats. cbn [MarketRoute.lowest_price
    MarketRoute.highest_price MarketRoute.avg_price].
  split; [|split].
  - destruct processed as [|p rest]; [apply Exists_nil in Hmiss; destruct Hmiss|].
    change (0 <? length (p :: rest))%nat with true. cbv iota.
    rewrite (fold_add_missing (p :: rest) (Some 0%Q) Hmiss). reflexivity.
  - destruct (MarketRoute.quintal_prices processed) as [|x rest];
      [apply Exists_nil in Hqs; destruct Hqs|].
    apply fold_max_missing, Hqs.
  - destruct (MarketRoute.quintal_prices processed) as [|x rest];
      [apply Exists_nil in Hqs; destruct Hqs|].
    apply fold_min_missing, Hqs.
Qed.

Lemma missing_price_column_poisons_statistics_witness :
  MarketRoute.avg_price
    (MarketRoute.marketStats ∅ (MarketPrices.processedPrices (Some MarketPrices.wheat_rise)))
  = None.
Proof.
  apply (missing_price_column_poisons_statistics
           (MarketPrices.processedPrices (Some MarketPrices.wheat_rise)) ∅).
  apply Exists_cons_hd. reflexivity.
Defined.

Section DistrictBoundsFacts.
Import DistrictStats.
Local Open Scope Q_scope.

(** A field total lies between the bounds of its values times the number
    of records, as long as 0, the value of an absent field, is inside. *)
Lemma field_total_bounds field lo hi data :
  lo <= 0 -> 0 <= hi ->
  (forall r q, r ∈ data -> field r = Some q -> lo <= q <= hi) ->
  lo * inject_Z (Z.of_nat (length data)) <= field_total field data
  /\ field_total field data <= hi * inject_Z (Z.of_nat (length data)).
Proof.
  intros Hlo Hhi. unfold field_total.
  induction data as [|r rest IH]; intros Hall.
  - change (inject_Z (Z.of_nat (length (@nil district_statistic)))) with 0.
    simpl. split; lra.
  - cbn [length map foldr]. rewrite Nat2Z.inj_succ. unfold Z.succ.
    rewrite inject_Z_plus. change (inject_Z 1) with 1.
    destruct IH as [IHl IHh].
    { intros r' q Hr'. apply Hall. right. exact Hr'. }
    assert (Hr : lo <= default 0 (field r) <= hi).
    { destruct (field r) as [q|] eqn:Hq; simpl.
      - apply (Hall r q); [left | exact Hq].
      - split; assumption. }
    split; lra.
Qed.

Lemma average_bounds field lo hi data :
  lo <= 0 -> 0 <= hi ->
  (forall r q, r ∈ data -> field r = Some q -> lo <= q <= hi) ->
  lo <= average field data <= hi.
Proof.
  intros Hlo Hhi Hall.
  destruct data as [|r rest] eqn:Hdata.
  - unfold average. simpl. split; assumption.
  - rewrite <- Hdata in *.
    assert (Hne : data <> []) by (rewrite Hdata; discriminate).
    rewrite (average_nonempty field data Hne).
    destruct (field_total_bounds field lo hi data Hlo Hhi Hall) as [Hl Hh].
    assert (Hn : 0 < inject_Z (Z.of_nat (length data))).
    { rewrite Hdata. cbn [length]. rewrite Nat2Z.inj_succ.
      change 0 with (inject_Z 0). rewrite <- Zlt_Qlt. lia. }
    split.
    + apply Qle_shift_div_l; [exact Hn | exact Hl].
    + apply Qle_shift_div_r; [exact Hn | exact Hh].
Qed.

Lemma field_total_nonneg field data :
  (forall r q, r ∈ data -> field r = Some q -> 0 <= q) ->
  0 <= field_total field data.
Proof.
  unfold field_total. induction data as [|r rest IH]; intros Hall.
  - simpl. lra.
  - cbn [map foldr].
    assert (Hrest : 0 <= foldr Qplus 0 (map (fun r => default 0 (field r)) rest)).
    { apply IH. intros r' q Hr'. apply Hall. right. exact Hr'. }
    assert (Hr : 0 <= default 0 (field r)).
    { destruct (field r) as [q|] eqn:Hq; simpl; [|lra].
      apply (Hall r q); [left | exact Hq]. }
    lra.
Qed.

Lemma average_nonneg field data :
  (forall r q, r ∈ data -> field r = Some q -> 0 <= q) ->
  0 <= average field data.
Proof.
  intros Hall. destruct data as [|r rest] eqn:Hdata.
  - unfold average. simpl. lra.
  - rewrite <- Hdata in *.
    assert (Hne : data <> []) by (rewrite Hdata; discriminate).
    rewrite (average_nonempty field data Hne).
    assert (Hn : 0 < inject_Z (Z.of_nat (length data))).
    { rewrite Hdata. cbn [length]. rewrite Nat2Z.inj_succ.
      change 0 with (inject_Z 0). rewrite <- Zlt_Qlt. lia. }
    apply Qle_shift_div_l; [exact Hn|].
    pose proof (field_total_nonneg field data Hall). lra.
Qed.

End DistrictBoundsFacts.



(** X10.  Averages stay inside the range of the data: when every recorded
    irrigation coverage lies in [0, 100], so does the reported average, for
    any number of records (none included) and however many of them lack the
    value; likewise the average yield and the average rainfall are not
    negative when no recorded value is. *)
Theorem averages_stay_in_range
    (data : list DistrictStats.district_statistic) :
  (forall r q, r ∈ data ->
     DistrictStats.irrigation_coverage_percent r = Some q -> (0 <= q <= 100)%Q) ->
  (forall r q, r ∈ data -> DistrictStats.yield_mt_per_ha r = Some q -> (0 <= q)%Q) ->
  (forall r q, r ∈ data -> DistrictStats.rainfall_mm r = Some q -> (0 <= q)%Q) ->
  exists a,
    DistrictStats.aggregates (Some data) = Some a
    /\ (0 <= DistrictStats.avgIrrigationCoverage a <= 100)%Q
    /\ (0 <= DistrictStats.avgYield a)%Q
    /\ (0 <= DistrictStats.avgRainfall a)%Q.
Proof.
  intros Hirr Hyield Hrain. eexists. split; [reflexivity|]. simpl.
  split; [|split].
  - apply average_bounds; [lra | lra | exact Hirr].
  - apply average_nonneg. exact Hyield.
  - apply average_nonneg. exact Hrain.
Qed.

Lemma averages_stay_in_range_witness :
  exists a,
    DistrictStats.aggregates (Some DistrictStats.yield_10_and_missing) = Some a
    /\ (0 <= DistrictStats.avgIrrigationCoverage a <= 100)%Q
    /\ (0 <= DistrictStats.avgYield a)%Q
    /\ (0 <= DistrictStats.avgRainfall a)%Q.
Proof.
  apply (averages_stay_in_range DistrictStats.yield_10_and_missing).
  - intros r q Hr Hq. repeat (apply elem_of_cons in Hr as [-> | Hr]);
      try discriminate Hq. apply elem_of_nil in Hr. destruct Hr.
  - intros r q Hr Hq. repeat (apply elem_of_cons in Hr as [-> | Hr]).
    + injection Hq as <-. discriminate.
    + discriminate Hq.
    + apply elem_of_nil in Hr. destruct Hr.
  - intros r q Hr Hq. repeat (apply elem_of_cons in Hr as [-> | Hr]);
      try discriminate Hq. apply elem_of_nil in Hr. destruct Hr.
Defined.

Section ParseIntFacts.












End ParseIntFacts.

Section QueryShapeFacts.

Lemma district_limit (p : DistrictStats.search_params) :
  DistrictStats.limit (DistrictStats.build_query p)
  = Js.parseInt (match Js.truthy_string (DistrictStats.param_limit p) with
                 | Some s => s
                 | None => "100"
                 end).
Proof.
  unfold DistrictStats.build_query.
  destruct (Js.truthy_string (DistrictStats.param_district p));
    destruct (Js.truthy_string (DistrictStats.param_taluka p));
    destruct (Js.truthy_string (DistrictStats.param_crop p));
    destruct (Js.truthy_string (DistrictStats.param_year p)) as [year|];
    try destruct (Js.parseInt year); reflexivity.
Qed.

Lemma market_limit (p : MarketRoute.search_params) :
  DistrictStats.limit (MarketRoute.build_query p) = MarketRoute.requested_limit p.
Proof.
  unfold MarketRoute.build_query.
  destruct (Js.truthy_string (MarketRoute.param_crop p));
    destruct (Js.truthy_string (MarketRoute.param_state p)); reflexivity.
Qed.

End QueryShapeFacts.





Section BlankFacts.

Lemma truthy_string_idem s : Js.truthy_string (Js.truthy_string s) = Js.truthy_string s.
Proof. destruct s as [[|c rest]|]; reflexivity. Qed.

End BlankFacts.

(** X13.  An empty parameter is an absent one: on both routes the query
    built is the query of the request with the empty parameters left out,
    the district response is the same, and an empty or absent limit is the
    default, 100 for district statistics and 50 for market prices. *)
Theorem empty_parameters_are_absent
    (repository : DistrictStats.query -> option DistrictStats.query_result)
    (dp : DistrictStats.search_params) (mp : MarketRoute.search_params) :
  DistrictStats.build_query dp
  = DistrictStats.build_query (DistrictStats.drop_blank dp)
  /\ DistrictStats.GET repository dp
     = DistrictStats.GET repository (DistrictStats.drop_blank dp)
  /\ MarketRoute.build_query mp
     = MarketRoute.build_query (MarketRoute.drop_blank mp)
  /\ (Js.truthy_string (DistrictStats.param_limit dp) = None ->
      DistrictStats.limit (DistrictStats.build_query dp) = Some 100%Z)
  /\ (Js.truthy_string (MarketRoute.param_limit mp) = None ->
      DistrictStats.limit (MarketRoute.build_query mp) = Some 50%Z).
Proof.
  assert (Hd : DistrictStats.build_query dp
               = DistrictStats.build_query (DistrictStats.drop_blank dp)).
  { unfold DistrictStats.build_query, DistrictStats.drop_blank. simpl.
    rewrite !truthy_string_idem. reflexivity. }
  split; [exact Hd|]. split.
  { unfold DistrictStats.GET. rewrite Hd. reflexivity. }
  split.
  { unfold MarketRoute.build_query, MarketRoute.requested_limit,
      MarketRoute.drop_blank. simpl.
    rewrite !truthy_string_idem. reflexivity. }
  split.
  - intros H. rewrite district_limit, H. reflexivity.
  - intros H. rewrite market_limit. unfold MarketRoute.requested_limit.
    rewrite H. reflexivity.
Qed.





Section SoilOrderFacts.
Import SoilHealth.

Lemma at_least_mono lo q1 q2 :
  (q1 <= q2)%Q ->
  at_least lo (Some (Num q1)) = true -> at_least lo (Some (Num q2)) = true.
Proof.
  simpl. intros Hle H. apply Qle_bool_iff in H. apply Qle_bool_iff.
  eapply Qle_trans; eassumption.
Qed.

Lemma spec_organic_mono q1 q2 :
  (q1 <= q2)%Q ->
  (spec_organic (Some (Num q1)) <= spec_organic (Some (Num q2)))%Z.
Proof.
  intros Hle. unfold spec_organic.
  pose proof (at_least_mono 2 q1 q2 Hle) as H2.
  pose proof (at_least_mono 1 q1 q2 Hle) as H1.
  destruct (at_least 2 (Some (Num q1))), (at_least 1 (Some (Num q1)));
    try (rewrite H2 by reflexivity); try (rewrite H1 by reflexivity);
    destruct (at_least 2 (Some (Num q2))), (at_least 1 (Some (Num q2))); lia.
Qed.

Lemma spec_organic_least om : (spec_organic None <= spec_organic om)%Z.
Proof.
  unfold spec_organic. simpl.
  destruct (at_least 2 om), (at_least 1 om); lia.
Qed.

End SoilOrderFacts.

(** X16.  Full marks need every reading in its best band: the score is 80
    exactly when pH, nitrogen, phosphorus and potassium are all in range and
    organic matter is at least 2.0.  One nutrient out of range caps the
    score at 70, and a pH out of range caps it at 50. *)
Theorem soil_score_full_marks
    (ph n p k om : option SoilHealth.numeric) :
  (SoilHealth.calculate_soil_health_score ph n p k om = 80%Z
   <-> SoilHealth.all_optimal ph n p k om = true)
  /\ (SoilHealth.nutrients_in_range n p k = false ->
      (SoilHealth.calculate_soil_health_score ph n p k om <= 70)%Z)
  /\ (SoilHealth.within 6 (15 # 2) ph = false ->
      (SoilHealth.calculate_soil_health_score ph n p k om <= 50)%Z).
Proof.
  rewrite score_is_spec_score.
  unfold SoilHealth.spec_score, SoilHealth.spec_ph, SoilHealth.spec_nitrogen,
    SoilHealth.spec_phosphorus, SoilHealth.spec_potassium, SoilHealth.spec_organic,
    SoilHealth.all_optimal, SoilHealth.nutrients_in_range.
  destruct (SoilHealth.within 6 (15 # 2) ph), (SoilHealth.within 200 400 n),
    (SoilHealth.within 20 60 p), (SoilHealth.within 150 300 k),
    (SoilHealth.at_least 2 om), (SoilHealth.at_least 1 om); cbn;
    repeat split; intros; try discriminate; try lia.
Qed.

(** X17.  More organic matter never lowers the score: with the other four
    readings fixed, the score is monotone in the organic-matter reading. *)
Theorem soil_score_monotone_in_organic_matter
    (ph n p k : option SoilHealth.numeric) (om1 om2 : Q) :
  (om1 <= om2)%Q ->
  (SoilHealth.calculate_soil_health_score ph n p k (Some (SoilHealth.Num om1))
   <= SoilHealth.calculate_soil_health_score ph n p k (Some (SoilHealth.Num om2)))%Z.
Proof.
  intros Hle. rewrite !score_is_spec_score. unfold SoilHealth.spec_score.
  pose proof (spec_organic_mono om1 om2 Hle). lia.
Qed.

Lemma soil_score_monotone_in_organic_matter_witness :
  (SoilHealth.calculate_soil_health_score
     (SoilHealth.lit (65 # 10)) (SoilHealth.lit 300) (SoilHealth.lit 40)
     (SoilHealth.lit 200) (Some (SoilHealth.Num (15 # 10)))
   <= SoilHealth.calculate_soil_health_score
        (SoilHealth.lit (65 # 10)) (SoilHealth.lit 300) (SoilHealth.lit 40)
        (SoilHealth.lit 200) (Some (SoilHealth.Num (25 # 10))))%Z.
Proof.
  apply (soil_score_monotone_in_organic_matter _ _ _ _ (15 # 10) (25 # 10)).
  discriminate.
Defined.

(** X18.  A NULL reading is scored like the worst one: replacing any
    reading by NULL never raises the score, and with all five NULL the score
    is the minimum, 25. *)
Theorem null_reading_never_raises_score
    (ph n p k om : option SoilHealth.numeric) :
  (SoilHealth.calculate_soil_health_score None n p k om
   <= SoilHealth.calculate_soil_health_score ph n p k om)%Z
  /\ (SoilHealth.calculate_soil_health_score ph None p k om
      <= SoilHealth.calculate_soil_health_score ph n p k om)%Z
  /\ (SoilHealth.calculate_soil_health_score ph n None k om
      <= SoilHealth.calculate_soil_health_score ph n p k om)%Z
  /\ (SoilHealth.calculate_soil_health_score ph n p None om
      <= SoilHealth.calculate_soil_health_score ph n p k om)%Z
  /\ (SoilHealth.calculate_soil_health_score ph n p k None
      <= SoilHealth.calculate_soil_health_score ph n p k om)%Z
  /\ SoilHealth.calculate_soil_health_score None None None None None = 25%Z.
Proof.
  rewrite !score_is_spec_score.
  pose proof (spec_organic_least om) as Hom.
  unfold SoilHealth.spec_score, SoilHealth.spec_ph, SoilHealth.spec_nitrogen,
    SoilHealth.spec_phosphorus, SoilHealth.spec_potassium in *.
  cbn [SoilHealth.within].
  destruct (SoilHealth.within 6 (15 # 2) ph), (SoilHealth.within 200 400 n),
    (SoilHealth.within 20 60 p), (SoilHealth.within 150 300 k);
    repeat split; try reflexivity; lia.
Qed.

Section CropUpdateFacts.
Import CropCycles.
Local Open Scope Z_scope.

(** Assignments that do not name the planting date leave it alone, and no
    assignment touches the creation time. *)
Lemma fold_assign_keeps sets : forall r,
  existsb assigns_planting_date sets = false ->
  planting_date (fold_left assign sets r) = planting_date r
  /\ created_at (fold_left assign sets r) = created_at r.
Proof.
  induction sets as [|a sets IH]; intros r Hnone; simpl; [split; reflexivity|].
  simpl in Hnone. apply orb_false_iff in Hnone as [Ha Hrest].
  destruct (IH (assign r a) Hrest) as [-> ->].
  destruct a; simpl in *; try discriminate; split; reflexivity.
Qed.

End CropUpdateFacts.

(** X19.  In any reachable state of [crop_cycles], a successful [UPDATE]
    of an existing row that does not assign the planting date leaves the
    row's planting date and expected harvest date as they were, stamps
    [updated_at] with the time of the statement, and leaves every other row
    untouched. *)
Theorem update_of_other_columns_keeps_both_dates
    (representable : Z -> bool) (script : list (Z * CropCycles.statement))
    (id : N) (r : CropCycles.crop_cycle) (now : Z)
    (sets : list CropCycles.assignment) (t' : gmap N CropCycles.crop_cycle) :
  CropCycles.run representable script ∅ !! id = Some r ->
  existsb CropCycles.assigns_planting_date sets = false ->
  CropCycles.exec representable now (CropCycles.UPDATE id sets)
    (CropCycles.run representable script ∅) = Some t' ->
  (exists r',
     t' !! id = Some r'
     /\ CropCycles.planting_date r' = CropCycles.planting_date r
     /\ CropCycles.expected_harvest_date r' = CropCycles.expected_harvest_date r
     /\ CropCycles.updated_at r' = now)
  /\ (forall other, other <> id ->
        t' !! other = CropCycles.run representable script ∅ !! other).
Proof.
  intros Hrow Hsets Hexec.
  assert (Hsync : CropCycles.in_sync (CropCycles.run representable script ∅)).
  { apply run_in_sync. apply map_Forall_empty. }
  pose proof (Hsync id r Hrow) as Hr. simpl in Hr.
  simpl in Hexec.
  destruct (existsb CropCycles.writes_generated sets); [discriminate|].
  rewrite Hrow in Hexec.
  destruct (CropCycles.store_generated _ _) as [r'|] eqn:Hgen; [|discriminate].
  injection Hexec as <-.
  split.
  - exists r'. rewrite lookup_insert_eq. split; [reflexivity|].
    unfold CropCycles.store_generated, CropCycles.generation_expression in Hgen.
    destruct (representable _); [|discriminate]. injection Hgen as <-.
    simpl. destruct (fold_assign_keeps sets r Hsets) as [Hp _].
    rewrite Hp, Hr. repeat split; reflexivity.
  - intros other Hother. apply lookup_insert_ne. congruence.
Qed.

Lemma update_of_other_columns_keeps_both_dates_witness :
  let script :=
    [ (10%Z, CropCycles.INSERT 1 7 "Wheat" 9000%Z CropCycles.DEFAULT None None) ] in
  exists t' r',
    CropCycles.exec (fun _ => true) 20%Z
      (CropCycles.UPDATE 1 [CropCycles.SET_status (Some CropCycles.harvested)])
      (CropCycles.run (fun _ => true) script ∅) = Some t'
    /\ t' !! 1%N = Some r'
    /\ CropCycles.expected_harvest_date r' = 9120%Z
    /\ CropCycles.updated_at r' = 20%Z.
Proof.
  intros script.
  destruct (CropCycles.exec (fun _ => true) 20%Z
              (CropCycles.UPDATE 1 [CropCycles.SET_status (Some CropCycles.harvested)])
              (CropCycles.run (fun _ => true) script ∅)) as [t'|] eqn:Hexec;
    [|vm_compute in Hexec; discriminate].
  set (r := {| CropCycles.field_id := 7%N; CropCycles.crop_name := "Wheat";
               CropCycles.planting_date := 9000%Z;
               CropCycles.expected_harvest_date := 9120%Z;
               CropCycles.status := Some CropCycles.planning;
               CropCycles.season := None;
               CropCycles.created_at := 10%Z;
               CropCycles.updated_at := 10%Z |}).
  assert (Hrow : CropCycles.run (fun _ => true) script ∅ !! 1%N = Some r)
    by (vm_compute; reflexivity).
  destruct (update_of_other_columns_keeps_both_dates (fun _ => true) script 1%N r
              20%Z [CropCycles.SET_status (Some CropCycles.harvested)] t'
              Hrow eq_refl Hexec) as [(r' & Hr' & _ & Hh & Hu) _].
  exists t', r'. split; [reflexivity|]. split; [exact Hr'|].
  split; [rewrite Hh; reflexivity | exact Hu].
Defined.


Example seed_without_key :
  Seed.seedDistrictStats _ Seed.keep Seed.no_key (Some [Seed.pune_wheat]) Seed.fresh
  = (Seed.exit 1, Seed.fresh).
Proof. reflexivity. Qed.

Example seed_with_key :
  Seed.seedDistrictStats _ Seed.keep Seed.with_key (Some [Seed.pune_wheat]) Seed.fresh
  = (Seed.log "Seeded 1 district stats rows",
     {| Seed.db := [Seed.to_row Seed.pune_wheat];
        Seed.upserts := [[Seed.to_row Seed.pune_wheat]] |}).
Proof. reflexivity. Qed.

(** Division by 100 in the form [lra] reads. *)
Ltac hundredths :=
  unfold Qdiv in *;
  change (/ 100)%Q with (1 # 100)%Q in *.

Section DomainFacts.
Import SoilHealth Domains.
Local Open Scope Q_scope.

Lemma round_hundredths_nonneg q :
  0 <= q -> round_hundredths q = Qfloor (q * 100 + (1 # 2)).
Proof.
  intros H. unfold round_hundredths. apply Qle_bool_iff in H. rewrite H. reflexivity.
Qed.

Lemma round_hundredths_neg q :
  q < 0 -> round_hundredths q = (- Qfloor (- q * 100 + (1 # 2)))%Z.
Proof.
  intros H. unfold round_hundredths.
  destruct (Qle_bool 0 q) eqn:E; [|reflexivity].
  apply Qle_bool_iff in E. lra.
Qed.

Lemma round_hundredths_nearest q :
  Qabs (inject_Z (round_hundredths q) / 100 - q) <= 1 # 200.
Proof.
  apply Qabs_Qle_condition. hundredths.
  destruct (Qlt_le_dec q 0) as [Hneg|Hpos].
  - rewrite (round_hundredths_neg q Hneg), inject_Z_opp.
    destruct (floor_sandwich (- q * 100 + (1 # 2))) as [Hlo Hhi]. split; lra.
  - rewrite (round_hundredths_nonneg q Hpos).
    destruct (floor_sandwich (q * 100 + (1 # 2))) as [Hlo Hhi]. split; lra.
Qed.

(** The floor of an integer and a half is the integer. *)
Lemma Qfloor_half (h : Z) : Qfloor (inject_Z h + (1 # 2)) = h.
Proof.
  destruct (floor_sandwich (inject_Z h + (1 # 2))) as [Hlo Hhi].
  set (n := Qfloor (inject_Z h + (1 # 2))) in *.
  assert (H1 : (n < h + 1)%Z).
  { rewrite Zlt_Qlt, inject_Z_plus. change (inject_Z 1) with 1. lra. }
  assert (H2 : (h < n + 1)%Z).
  { rewrite Zlt_Qlt, inject_Z_plus. change (inject_Z 1) with 1. lra. }
  lia.
Qed.

(** A value with two decimals is its own rounding. *)
Lemma round_hundredths_fixed (h : Z) :
  (0 <= h)%Z -> round_hundredths (inject_Z h / 100) = h.
Proof.
  intros Hh.
  assert (Hq : 0 <= inject_Z h / 100).
  { hundredths. assert (0 <= inject_Z h) by (change 0 with (inject_Z 0);
      rewrite <- Zle_Qle; exact Hh). lra. }
  rewrite (round_hundredths_nonneg _ Hq).
  assert (E : inject_Z h / 100 * 100 + (1 # 2) == inject_Z h + (1 # 2)).
  { hundredths. lra. }
  rewrite E. apply Qfloor_half.
Qed.

(** The check of the domain on a stored value with [h] hundredths. *)
Lemma land_check_hundredths (h : Z) :
  check_passes
    (sql_and (sql_ge (Some (Num (inject_Z h / 100))) (lit (1 # 100)))
             (sql_le (Some (Num (inject_Z h / 100))) (lit 10000)))
  = ((1 <=? h)%Z && (h <=? 1000000)%Z).
Proof.
  simpl.
  assert (Hlo : Qle_bool (1 # 100) (inject_Z h / 100) = (1 <=? h)%Z).
  { apply eq_true_iff_eq. rewrite Qle_bool_iff, Z.leb_le.
    rewrite (Zle_Qle 1 h). change (inject_Z 1) with 1. hundredths.
    split; intros H; lra. }
  assert (Hhi : Qle_bool (inject_Z h / 100) 10000 = (h <=? 1000000)%Z).
  { apply eq_true_iff_eq. rewrite Qle_bool_iff, Z.leb_le.
    rewrite (Zle_Qle h 1000000). change (inject_Z 1000000) with 1000000.
    hundredths. split; intros H; lra. }
  rewrite Hlo, Hhi.
  destruct (1 <=? h)%Z, (h <=? 1000000)%Z; reflexivity.
Qed.

End DomainFacts.

(** X21.  A value the [land_size_hectares] domain accepts is stored rounded
    to two decimals, within half a hundredth of what was given, and lies
    between 0.01 and 10000; storing the stored value again changes nothing.
    NULL is accepted as it is; [NaN] and the infinities are rejected. *)
Theorem land_size_is_stored_rounded_and_bounded
    (v : SoilHealth.numeric) (stored : option SoilHealth.numeric) :
  Domains.land_size_hectares (Some v) = Some stored ->
  exists q h,
    v = SoilHealth.Num q
    /\ stored = Some (SoilHealth.Num (inject_Z h / 100))
    /\ h = Domains.round_hundredths q
    /\ (1 <= h <= 1000000)%Z
    /\ (Qabs (inject_Z h / 100 - q) <= 1 # 200)%Q
    /\ Domains.land_size_hectares stored = Some stored
    /\ Domains.land_size_hectares None = Some None.
Proof.
  unfold Domains.land_size_hectares at 1.
  destruct v as [q| | |]; simpl Domains.NUMERIC_8_2; try discriminate.
  set (h := Domains.round_hundredths q).
    destruct (Z.abs h <? 100000000)%Z eqn:Hfit; [|discriminate].
    rewrite land_check_hundredths.
    destruct ((1 <=? h)%Z && (h <=? 1000000)%Z) eqn:Hrange; [|discriminate].
    intros [= <-].
    apply andb_true_iff in Hrange as [Hlo Hhi].
    apply Z.leb_le in Hlo. apply Z.leb_le in Hhi.
    exists q, h. split; [reflexivity|]. split; [reflexivity|].
    split; [reflexivity|]. split; [lia|].
    split; [apply round_hundredths_nearest|].
    unfold Domains.land_size_hectares at 1. simpl Domains.NUMERIC_8_2.
    rewrite (round_hundredths_fixed h) by lia.
    rewrite Hfit, land_check_hundredths.
    apply Z.leb_le in Hlo. apply Z.leb_le in Hhi. rewrite Hlo, Hhi.
    split; reflexivity.
Qed.

Lemma land_size_is_stored_rounded_and_bounded_witness :
  Domains.land_size_hectares (Some (SoilHealth.Num (5 # 1000)))
  = Some (Some (SoilHealth.Num (inject_Z 1 / 100)))
  /\ Domains.land_size_hectares (Some (SoilHealth.Num (inject_Z 1 / 100)))
     = Some (Some (SoilHealth.Num (inject_Z 1 / 100)))
  /\ Domains.land_size_hectares (Some (SoilHealth.Num (4 # 1000))) = None.
Proof.
  destruct (land_size_is_stored_rounded_and_bounded
              (SoilHealth.Num (5 # 1000))
              (Some (SoilHealth.Num (inject_Z 1 / 100))) eq_refl)
    as (q & h & _ & _ & _ & _ & _ & Hagain & _).
  split; [reflexivity|]. split; [exact Hagain | reflexivity].
Defined.

Section PatternFacts.
Import Patterns.

Lemma concat_singletons (l : list ascii) : concat (map (fun c => [c]) l) = l.
Proof. induction l as [|c l IH]; simpl; [reflexivity | rewrite IH; reflexivity]. Qed.

(** A repetition of a class is a run of its characters. *)
Lemma pieces_of_class member (pieces : list (list ascii)) :
  Forall (matches (Class member)) pieces ->
  forallb member (concat pieces) = true
  /\ length (concat pieces) = length pieces.
Proof.
  induction 1 as [|piece pieces (c & -> & Hc) _ [IHall IHlen]]; simpl.
  - split; reflexivity.
  - rewrite Hc, IHall, IHlen. split; reflexivity.
Qed.

Lemma run_spec member lo hi l :
  run member lo hi l = true <-> matches (Repeat (Class member) lo hi) l.
Proof.
  unfold run. rewrite !andb_true_iff, Nat.leb_le. split.
  - intros [[Hall Hlo] Hhi].
    exists (map (fun c => [c]) l). rewrite concat_singletons, length_map.
    split; [reflexivity|]. split; [exact Hlo|]. split.
    + destruct hi as [h|]; [apply Nat.leb_le, Hhi | exact I].
    + clear Hlo Hhi. induction l as [|c l IH]; simpl in *; constructor.
      * exists c. apply andb_true_iff in Hall as [Hc _]. split; [reflexivity | exact Hc].
      * apply IH. apply andb_true_iff in Hall as [_ Hall]. exact Hall.
  - intros (pieces & -> & Hlo & Hhi & Hall).
    destruct (pieces_of_class member pieces Hall) as [Hmem Hlen].
    rewrite Hlen. split; [split; [exact Hmem | exact Hlo]|].
    destruct hi as [h|]; [apply Nat.leb_le, Hhi | reflexivity].
Qed.

Lemma run_length member lo hi l :
  run member lo hi l = true ->
  (lo <= length l)%nat
  /\ match hi with Some h => (length l <= h)%nat | None => True end
  /\ forallb member l = true.
Proof.
  unfold run. rewrite !andb_true_iff, Nat.leb_le. intros [[Hall Hlo] Hhi].
  split; [exact Hlo|]. split; [|exact Hall].
  destruct hi as [h|]; [apply Nat.leb_le, Hhi | exact I].
Qed.



Lemma split_first_sound c l before after :
  split_first c l = Some (before, after) ->
  l = before ++ c :: after /\ c ∉ before.
Proof.
  revert before. induction l as [|a rest IH]; intros before; simpl; [discriminate|].
  destruct (Ascii.eqb_spec a c) as [->|Hne].
  - intros [= <- <-]. split; [reflexivity | apply not_elem_of_nil].
  - destruct (split_first c rest) as [[b a']|]; [|discriminate].
    intros [= <- <-]. destruct (IH b eq_refl) as [-> Hnot].
    split; [reflexivity|]. intros Hin. apply elem_of_cons in Hin as [E|Hin];
      [congruence | exact (Hnot Hin)].
Qed.

Lemma split_first_app c before after :
  c ∉ before -> split_first c (before ++ c :: after) = Some (before, after).
Proof.
  induction before as [|a before IH]; intros Hnot; simpl.
  - rewrite Ascii.eqb_refl. reflexivity.
  - destruct (Ascii.eqb_spec a c) as [->|Hne].
    + exfalso. apply Hnot. left.
    + rewrite IH; [reflexivity|]. intros Hin. apply Hnot. right. exact Hin.
Qed.

Lemma split_last_sound c l before after :
  split_last c l = Some (before, after) ->
  l = before ++ c :: after /\ c ∉ after.
Proof.
  revert before. induction l as [|a rest IH]; intros before; simpl; [discriminate|].
  destruct (split_last c rest) as [[b a']|] eqn:Hrest.
  - intros [= <- <-]. destruct (IH b eq_refl) as [-> Hnot].
    split; [reflexivity | exact Hnot].
  - destruct (Ascii.eqb_spec a c) as [->|Hne]; [|discriminate].
    intros [= <- <-]. split; [reflexivity|].
    clear IH. revert Hrest. induction rest as [|x rest IH]; intros Hrest.
    + apply not_elem_of_nil.
    + simpl in Hrest. destruct (split_last c rest) as [[b a']|]; [discriminate|].
      destruct (Ascii.eqb_spec x c) as [->|Hne]; [discriminate|].
      intros Hin. apply elem_of_cons in Hin as [E|Hin]; [congruence|].
      exact (IH eq_refl Hin).
Qed.

Lemma split_last_none c l : c ∉ l -> split_last c l = None.
Proof.
  induction l as [|a rest IH]; intros Hnot; simpl; [reflexivity|].
  rewrite IH by (intros Hin; apply Hnot; right; exact Hin).
  destruct (Ascii.eqb_spec a c) as [->|Hne]; [|reflexivity].
  exfalso. apply Hnot. left.
Qed.

Lemma split_last_app c before after :
  c ∉ after -> split_last c (before ++ c :: after) = Some (before, after).
Proof.
  intros Hnot. induction before as [|a before IH]; simpl.
  - rewrite (split_last_none c after Hnot), Ascii.eqb_refl. reflexivity.
  - rewrite IH. reflexivity.
Qed.

(** A character outside a class does not occur in a run of the class. *)
Lemma not_in_run (member : ascii -> bool) (c : ascii) (l : list ascii) :
  member c = false -> forallb member l = true -> c ∉ l.
Proof.
  intros Hc Hall Hin. rewrite forallb_forall in Hall.
  apply list_elem_of_In in Hin. rewrite (Hall c Hin) in Hc. discriminate.
Qed.

Lemma email_ok_parts l :
  email_ok l = true <->
  exists local domain tld,
    l = local ++ "@"%char :: domain ++ "."%char :: tld
    /\ run local_char 1 None local = true
    /\ run domain_char 1 None domain = true
    /\ run letter 2 None tld = true.
Proof.
  unfold email_ok. split.
  - destruct (split_first "@" l) as [[local rest]|] eqn:Hat; [|discriminate].
    rewrite andb_true_iff. intros [Hlocal Hrest].
    destruct (split_last "." rest) as [[domain tld]|] eqn:Hdot; [|discriminate].
    apply andb_true_iff in Hrest as [Hdomain Htld].
    apply split_first_sound in Hat as [-> _].
    apply split_last_sound in Hdot as [-> _].
    exists local, domain, tld. repeat split; assumption.
  - intros (local & domain & tld & -> & Hlocal & Hdomain & Htld).
    rewrite split_first_app.
    + rewrite Hlocal. simpl. rewrite split_last_app.
      * rewrite Hdomain, Htld. reflexivity.
      * apply run_length in Htld as (_ & _ & Hall).
        apply (not_in_run letter); [reflexivity | exact Hall].
    + apply run_length in Hlocal as (_ & _ & Hall).
      apply (not_in_run local_char); [reflexivity | exact Hall].
Qed.

Lemma email_ok_spec l : email_ok l = true <-> matches email_pattern l.
Proof.
  rewrite email_ok_parts. unfold email_pattern. cbn [matches]. split.
  - intros (local & domain & tld & -> & Hlocal & Hdomain & Htld).
    exists local, ("@"%char :: domain ++ "."%char :: tld).
    split; [reflexivity|].
    split; [apply (run_spec local_char 1 None), Hlocal|].
    exists ["@"%char], (domain ++ "."%char :: tld).
    split; [reflexivity|]. split; [reflexivity|].
    exists domain, ("."%char :: tld). split; [reflexivity|].
    split; [apply (run_spec domain_char 1 None), Hdomain|].
    exists ["."%char], tld. split; [reflexivity|]. split; [reflexivity|].
    apply (run_spec letter 2 None), Htld.
  - intros (local & r1 & -> & Hlocal & at_ & r2 & -> & -> & domain & r3 & ->
            & Hdomain & dot & tld & -> & -> & Htld).
    exists local, domain, tld. split; [reflexivity|].
    split; [apply (run_spec local_char 1 None), Hlocal|].
    split; [apply (run_spec domain_char 1 None), Hdomain|].
    apply (run_spec letter 2 None), Htld.
Qed.

End PatternFacts.

Section PatternTextFacts.
Import Patterns.



(** No character of the three classes of the email pattern is white
    space, and none is the at sign. *)
Lemma email_chars_plain c :
  local_char c = true \/ domain_char c = true \/ letter c = true ->
  space c = false /\ c <> "@"%char.
Proof.
  destruct c as [[] [] [] [] [] [] [] []]; vm_compute;
    intros [H | [H | H]]; try discriminate H; split; (reflexivity || discriminate).
Qed.

End PatternTextFacts.


Example phone_examples :
  Patterns.phone_number_check "+91 (22) 5550-1234" = true
  /\ Patterns.phone_number_check "+12345678901234567890" = true
  /\ Patterns.phone_number_check "12345" = false
  /\ Patterns.phone_number_check "98765x43210" = false.
Proof. repeat split; reflexivity. Qed.

(** X23.  The check of the [email_address] domain holds of exactly the
    texts of the form local "@" domain "." tld, with a non-empty local part
    of letters, digits and "._%+-", a non-empty domain of letters, digits,
    "." and "-", and a tld of at least two letters.  A text that passes
    therefore has exactly one "@", and no white space. *)
Theorem email_check_decides_pattern (s : string) :
  (Patterns.email_address_check s = true
   <-> Patterns.matches Patterns.email_pattern (list_ascii_of_string s))
  /\ (Patterns.email_address_check s = true ->
      exists local domain tld,
        list_ascii_of_string s
        = local ++ "@"%char :: domain ++ "."%char :: tld
        /\ local <> [] /\ domain <> [] /\ (2 <= length tld)%nat
        /\ forallb Patterns.letter tld = true
        /\ ("@"%char ∉ local ++ (domain ++ "."%char :: tld))
        /\ Forall (fun c => Patterns.space c = false) (list_ascii_of_string s)).
Proof.
  split; [apply email_ok_spec|].
  unfold Patterns.email_address_check. intros H.
  apply email_ok_parts in H as (local & domain & tld & -> & Hlocal & Hdomain & Htld).
  apply run_length in Hlocal as (Hl1 & _ & Hlocal).
  apply run_length in Hdomain as (Hd1 & _ & Hdomain).
  apply run_length in Htld as (Ht2 & _ & Htld).
  rewrite forallb_forall in Hlocal, Hdomain.
  pose proof Htld as Htld'. rewrite forallb_forall in Htld'.
  exists local, domain, tld. split; [reflexivity|].
  split; [intros ->; simpl in Hl1; lia|].
  split; [intros ->; simpl in Hd1; lia|].
  split; [exact Ht2|]. split; [exact Htld|].
  split.
  - rewrite !elem_of_app, elem_of_cons. intros [Hin | [Hin | [E | Hin]]].
    + apply list_elem_of_In, Hlocal in Hin.
      destruct (email_chars_plain "@") as [_ Hne]; [left; exact Hin | congruence].
    + apply list_elem_of_In, Hdomain in Hin.
      destruct (email_chars_plain "@") as [_ Hne]; [right; left; exact Hin | congruence].
    + discriminate E.
    + apply list_elem_of_In, Htld' in Hin.
      destruct (email_chars_plain "@") as [_ Hne]; [right; right; exact Hin | congruence].
  - apply Forall_app. split.
    + apply Forall_forall. intros c Hc. apply list_elem_of_In, Hlocal in Hc.
      apply email_chars_plain. left. exact Hc.
    + constructor; [reflexivity|]. apply Forall_app. split.
      * apply Forall_forall. intros c Hc. apply list_elem_of_In, Hdomain in Hc.
        apply email_chars_plain. right. left. exact Hc.
      * constructor; [reflexivity|].
        apply Forall_forall. intros c Hc. apply list_elem_of_In, Htld' in Hc.
        apply email_chars_plain. right. right. exact Hc.
Qed.

Example email_examples :
  Patterns.email_address_check "asha.patil+farm@mail.example.in" = true
  /\ Patterns.email_address_check "asha@example" = false
  /\ Patterns.email_address_check "asha@@example.in" = false
  /\ Patterns.email_address_check "asha@example.i" = false
  /\ Patterns.email_address_check "@example.in" = false.
Proof. repeat split; reflexivity. Qed.

(** X24.  An empty result is not an error on the market route: when the
    repository answers without error and with no rows, or with no data at
    all, the response is a success with no prices, an empty grouping and
    statistics that are all 0. *)
Theorem empty_market_is_a_success
    (repository : DistrictStats.query -> option MarketRoute.query_result)
    (now : string) (p : MarketRoute.search_params)
    (data : option (list MarketPrices.market_price)) :
  repository (MarketRoute.build_query p)
  = Some {| MarketRoute.data := data; MarketRoute.error := None |} ->
  data = None \/ data = Some [] ->
  MarketRoute.GET repository now p
  = MarketRoute.json_success [] ∅ MarketRoute.zero_stats
      (MarketRoute.param_crop p, MarketRoute.param_state p,
       MarketRoute.requested_limit p)
      "database" now.
Proof.
  intros Hres Hdata. unfold MarketRoute.GET. rewrite Hres.
  destruct Hdata as [-> | ->]; reflexivity.
Qed.

Lemma empty_market_is_a_success_witness :
  MarketRoute.GET (MarketRoute.serves []) "now" MarketRoute.any_request
  = MarketRoute.json_success [] ∅ MarketRoute.zero_stats
      (None, None, Some 50%Z) "database" "now".
Proof.
  apply (empty_market_is_a_success (MarketRoute.serves []) "now"
           MarketRoute.any_request (Some []) eq_refl).
  right. reflexivity.
Defined.


